(** * AutonomousAgent: the execution loop of AgentGPT

    A shallow embedding of [next/src/components/AutonomousAgent.ts]:
    the agent object, the collaborators it talks to (task store, event
    sink, lifecycle hooks, execution backend) and the methods
    [run], [startGoal], [loop], [conditionalPause], [stopAgent],
    [sendMessage] and [getMessageFromError].

    Conventions.
    - JavaScript numbers used as counters ([numLoops], [customMaxLoops])
      are integers of [Z]; an HTTP status is a [Z].
    - A value that may be [undefined] is an [option].
    - The code is asynchronous but has a single thread of control; the
      embedding runs one call of [run]/[loop] to its end, and the outside
      levers ([stopAgent], [updateIsRunning], [updatePlayBackControl]) act
      between such calls.
    - The recursion of [loop] is driven by a fuel argument; [loop_returns]
      shows how much fuel is always enough. *)

From Stdlib Require Import Ascii ZArith List String Bool Lia.
Import ListNotations.
Open Scope string_scope.
Open Scope Z_scope.

(** ** Types of [types/agentTypes] *)

(** Modelled from the spec: [types/agentTypes] is not part of the sources
    at hand.  The spec names two orchestration modes, two playback
    controls and four task statuses; in the code they are distinct
    non-empty string constants, hence truthy. *)
Inductive AgentMode := AUTOMATIC_MODE | PAUSE_MODE.
Inductive AgentPlaybackControl := AGENT_PLAY | AGENT_PAUSE.
Inductive TaskStatus :=
  TASK_STATUS_STARTED | TASK_STATUS_EXECUTING | TASK_STATUS_COMPLETED | TASK_STATUS_FINAL.

Definition AgentMode_eqb (a b : AgentMode) : bool :=
  match a, b with
  | AUTOMATIC_MODE, AUTOMATIC_MODE | PAUSE_MODE, PAUSE_MODE => true
  | _, _ => false
  end.

Definition AgentPlaybackControl_eqb (a b : AgentPlaybackControl) : bool :=
  match a, b with
  | AGENT_PLAY, AGENT_PLAY | AGENT_PAUSE, AGENT_PAUSE => true
  | _, _ => false
  end.

Definition TaskStatus_eqb (a b : TaskStatus) : bool :=
  match a, b with
  | TASK_STATUS_STARTED, TASK_STATUS_STARTED
  | TASK_STATUS_EXECUTING, TASK_STATUS_EXECUTING
  | TASK_STATUS_COMPLETED, TASK_STATUS_COMPLETED
  | TASK_STATUS_FINAL, TASK_STATUS_FINAL => true
  | _, _ => false
  end.

(** A task message.  [taskId] stands for the string made by uuid [v1()];
    [info] is the attached result. *)
Record Task := mkTask {
  taskId : nat;
  value : string;
  status : TaskStatus;
  info : option string
}.

Definition withStatus (st : TaskStatus) (t : Task) : Task :=
  mkTask (taskId t) (value t) st (info t).

Definition withInfo (r : string) (t : Task) : Task :=
  mkTask (taskId t) (value t) (status t) (Some r).

(** The tagged messages handed to [renderMessage]. *)
Inductive Message :=
| MESSAGE_TYPE_GOAL (v : string)
| MESSAGE_TYPE_THINKING
| MESSAGE_TYPE_SYSTEM (v : string)
| MESSAGE_TYPE_TASK (t : Task).

(** [Analysis] of [services/agent-api]. *)
Record Analysis := mkAnalysis {
  reasoning : string;
  action : string;
  arg : string
}.

(** What a backend call can throw: an axios error, with the status of its
    response when there is one, or anything else. *)
Inductive ApiError :=
| AxiosError (responseStatus : option Z)
| OtherError.

Inductive Response (A : Type) :=
| Ok (a : A)
| Fail (e : ApiError).
Arguments Ok {A} a.
Arguments Fail {A} e.

(** The requests the agent makes to the backend, in the order made. *)
Inductive Request :=
| ReqInitialTasks
| ReqAnalyzeTask (task : string)
| ReqExecuteTask (task : string) (analysis : Analysis)
| ReqAdditionalTasks (current : string) (remaining completed : list string) (result : string).

(** ** The agent object and its surroundings *)

(** The fields of [class AutonomousAgent] that the loop reads or writes.
    [customMaxLoops] is the one field of [modelSettings] that is used. *)
Record Agent := mkAgent {
  goal : string;
  completedTasks : list string;
  customMaxLoops : option Z;
  isRunning : bool;
  numLoops : Z;
  mode : AgentMode;
  playbackControl : AgentPlaybackControl
}.

(** What lies outside the object: the task store read by
    [getRemainingTasks], the messages received by [renderMessage], the
    calls made to the hooks [shutdown] and [handlePause], the
    web-search toggle of [useAgentStore], the uuid supply and the
    requests sent to the backend. *)
Record Env := mkEnv {
  tasks : list Task;
  messages : list Message;
  shutdownCalls : nat;
  handlePauseCalls : list AgentPlaybackControl;
  isWebSearchEnabled : bool;
  nextId : nat;
  requests : list Request
}.

Record World := mkWorld {
  this : Agent;
  env : Env
}.

Definition set_isRunning (b : bool) (w : World) : World :=
  let a := this w in
  mkWorld (mkAgent (goal a) (completedTasks a) (customMaxLoops a) b
                   (numLoops a) (mode a) (playbackControl a)) (env w).

Definition set_numLoops (n : Z) (w : World) : World :=
  let a := this w in
  mkWorld (mkAgent (goal a) (completedTasks a) (customMaxLoops a) (isRunning a)
                   n (mode a) (playbackControl a)) (env w).

Definition set_playbackControl (c : AgentPlaybackControl) (w : World) : World :=
  let a := this w in
  mkWorld (mkAgent (goal a) (completedTasks a) (customMaxLoops a) (isRunning a)
                   (numLoops a) (mode a) c) (env w).

Definition push_completedTasks (v : string) (w : World) : World :=
  let a := this w in
  mkWorld (mkAgent (goal a) (completedTasks a ++ [v]) (customMaxLoops a) (isRunning a)
                   (numLoops a) (mode a) (playbackControl a)) (env w).

(** uuid [v1()]: hands out the next identifier. *)
Definition freshId (w : World) : nat * World :=
  let e := env w in
  (nextId e,
   mkWorld (this w)
     (mkEnv (tasks e) (messages e) (shutdownCalls e) (handlePauseCalls e)
            (isWebSearchEnabled e) (S (nextId e)) (requests e))).

Definition logRequest (r : Request) (w : World) : World :=
  let e := env w in
  mkWorld (this w)
    (mkEnv (tasks e) (messages e) (shutdownCalls e) (handlePauseCalls e)
           (isWebSearchEnabled e) (nextId e) (requests e ++ [r])).

(** The hook [shutdown], a callback of the owner: the call is counted. *)
Definition shutdown (w : World) : World :=
  let e := env w in
  mkWorld (this w)
    (mkEnv (tasks e) (messages e) (S (shutdownCalls e)) (handlePauseCalls e)
           (isWebSearchEnabled e) (nextId e) (requests e)).

(** The hook [handlePause]: the call and its argument are recorded. *)
Definition handlePause (c : AgentPlaybackControl) (w : World) : World :=
  let e := env w in
  mkWorld (this w)
    (mkEnv (tasks e) (messages e) (shutdownCalls e) (handlePauseCalls e ++ [c])
           (isWebSearchEnabled e) (nextId e) (requests e)).

(** Modelled from the spec: the task store behind [useMessageStore] is not
    part of the sources at hand.  Per the spec it is an ordered collection
    to which a new [Started] task is appended in creation order, and in
    which a task already present is mutated in place, found by its
    identity, when its status or result changes. *)
Definition storeTask (t : Task) (ts : list Task) : list Task :=
  if TaskStatus_eqb (status t) TASK_STATUS_STARTED
  then ts ++ [t]
  else map (fun t' => if Nat.eqb (taskId t') (taskId t) then t else t') ts.

(** Modelled from the spec: the callback [renderMessage] is given by the
    owner and is not part of the sources at hand.  Per the spec the event
    sink receives every message, and task messages reach the task store. *)
Definition renderMessage (m : Message) (w : World) : World :=
  let e := env w in
  let ts := match m with
            | MESSAGE_TYPE_TASK t => storeTask t (tasks e)
            | _ => tasks e
            end in
  mkWorld (this w)
    (mkEnv ts (messages e ++ [m]) (shutdownCalls e) (handlePauseCalls e)
           (isWebSearchEnabled e) (nextId e) (requests e)).

(** ** Methods that need neither the backend nor the string tables *)

(** [constructor], lines 64-65.  The conditional operator binds weaker
    than [||], so line 65 reads
    [(playbackControl || this.mode == PAUSE_MODE) ? AGENT_PAUSE : AGENT_PLAY]. *)
Definition truthy {A : Type} (o : option A) : bool :=
  match o with Some _ => true | None => false end.

Definition constructor (goal0 : string) (customMaxLoops0 : option Z)
    (mode0 : option AgentMode) (playbackControl0 : option AgentPlaybackControl) : Agent :=
  let mode1 := match mode0 with Some m => m | None => AUTOMATIC_MODE end in
  let control :=
    if truthy playbackControl0 || AgentMode_eqb mode1 PAUSE_MODE
    then AGENT_PAUSE else AGENT_PLAY in
  mkAgent goal0 [] customMaxLoops0 false 0 mode1 control.

(** [getRemainingTasks], lines 203-205. *)
Definition getRemainingTasks (w : World) : list Task :=
  filter (fun t => TaskStatus_eqb (status t) TASK_STATUS_STARTED) (tasks (env w)).

(** [conditionalPause], lines 207-219. *)
Definition conditionalPause (w : World) : World :=
  if negb (AgentMode_eqb (mode (this w)) PAUSE_MODE) then w
  else
    let w1 := set_isRunning
                (negb (AgentPlaybackControl_eqb (playbackControl (this w)) AGENT_PAUSE)) w in
    if AgentPlaybackControl_eqb (playbackControl (this w1)) AGENT_PLAY
    then set_playbackControl AGENT_PAUSE w1
    else w1.

(** [updatePlayBackControl], lines 225-227. *)
Definition updatePlayBackControl (c : AgentPlaybackControl) (w : World) : World :=
  set_playbackControl c w.

(** [updateIsRunning], lines 229-231. *)
Definition updateIsRunning (b : bool) (w : World) : World :=
  set_isRunning b w.

(** [sendMessage], lines 240-244. *)
Definition sendMessage (m : Message) (w : World) : World :=
  if isRunning (this w) then renderMessage m w else w.

(** [sendGoalMessage], [sendThinkingMessage], [sendErrorMessage]. *)
Definition sendGoalMessage (w : World) : World :=
  sendMessage (MESSAGE_TYPE_GOAL (goal (this w))) w.

Definition sendThinkingMessage (w : World) : World :=
  sendMessage MESSAGE_TYPE_THINKING w.

Definition sendErrorMessage (error : string) (w : World) : World :=
  sendMessage (MESSAGE_TYPE_SYSTEM error) w.

(** ** Imported modules *)

(** [utils/translations] and [utils/constants] are not part of the sources
    at hand; what the agent imports from them is taken as a parameter. *)
Class Imports := {
  translate : string -> string -> string;
  DEFAULT_MAX_LOOPS_FREE : Z
}.

(** [services/agent-api]: the execution backend.  A call may fail.  The
    backend is free to answer the same question differently over time:
    each call also receives the number of requests made before it. *)
Class AgentApi := {
  getInitialTasks : nat -> Response (list string);
  analyzeTask : nat -> string -> Response Analysis;
  executeTask : nat -> string -> Analysis -> Response string;
  getAdditionalTasks :
    nat -> string -> list string -> list string -> string -> Response (list string)
}.

(** How a method ends: it returns, or an exception leaves it. *)
Inductive Outcome :=
| Returned (w : World)
| Threw (e : ApiError) (w : World).

Definition worldOf (o : Outcome) : World :=
  match o with Returned w | Threw _ w => w end.

(** One pass through the body of [loop]: it ends the call, or it reaches
    the recursive call of line 200. *)
Inductive Step :=
| Done (o : Outcome)
| Again (w : World).

Definition dquote : string := String (Ascii.ascii_of_nat 34) EmptyString.

Definition isStatus (code : Z) (e : ApiError) : bool :=
  match e with
  | AxiosError (Some s) => Z.eqb s code
  | _ => false
  end.

Definition isAxiosError (e : ApiError) : bool :=
  match e with AxiosError _ => true | OtherError => false end.

(** The key chosen by [getMessageFromError], lines 313-319.  The second
    [if] has an [else]; the first has none. *)
Definition messageKeyFromError (e : ApiError) : string :=
  let message := "ERROR_RETRIEVE_INITIAL_TASKS" in
  if isAxiosError e then
    let message := if isStatus 429 e then "ERROR_API_KEY_QUOTA" else message in
    if isStatus 404 e then "ERROR_OPENAI_API_KEY_NO_GPT4"
    else "ERROR_ACCESSING_OPENAI_API_KEY"
  else message.

Section Methods.
Context {imports : Imports} {api : AgentApi}.

(** [getMessageFromError], lines 312-322. *)
Definition getMessageFromError (e : ApiError) : string :=
  translate (messageKeyFromError e) "errors".

(** [maxLoops], lines 221-223; [0] and [undefined] are falsy. *)
Definition maxLoops (w : World) : Z :=
  match customMaxLoops (this w) with
  | Some n => if Z.eqb n 0 then DEFAULT_MAX_LOOPS_FREE else n
  | None => DEFAULT_MAX_LOOPS_FREE
  end.

(** [sendLoopMessage], [sendManualShutdownMessage], [sendCompletedMessage]. *)
Definition sendLoopMessage (w : World) : World :=
  sendMessage (MESSAGE_TYPE_SYSTEM (translate "DEMO_LOOPS_REACHED" "errors")) w.

Definition sendManualShutdownMessage (w : World) : World :=
  sendMessage (MESSAGE_TYPE_SYSTEM (translate "AGENT_MANUALLY_SHUT_DOWN" "errors")) w.

Definition sendCompletedMessage (w : World) : World :=
  sendMessage (MESSAGE_TYPE_SYSTEM (translate "ALL_TASKS_COMPLETETD" "errors")) w.

(** [sendAnalysisMessage], lines 271-291: the later tests overwrite the
    earlier ones. *)
Definition analysisText (analysis : Analysis) : string :=
  let message := "⏰ Generating response..." in
  let message :=
    if String.eqb (action analysis) "search"
    then "🔍 Searching the web for " ++ dquote ++ arg analysis ++ dquote ++ "..."
    else message in
  let message :=
    if String.eqb (action analysis) "wikipedia"
    then "🌐 Searching Wikipedia for " ++ dquote ++ arg analysis ++ dquote ++ "..."
    else message in
  let message :=
    if String.eqb (action analysis) "image"
    then "🎨 Generating an image with prompt: " ++ dquote ++ arg analysis ++ dquote ++ "..."
    else message in
  if String.eqb (action analysis) "code" then "💻 Writing code..." else message.

Definition sendAnalysisMessage (analysis : Analysis) (w : World) : World :=
  sendMessage (MESSAGE_TYPE_SYSTEM (analysisText analysis)) w.

(** [stopAgent], lines 233-238. *)
Definition stopAgent (w : World) : World :=
  let w := sendManualShutdownMessage w in
  let w := set_isRunning false w in
  shutdown w.

(** [onApiError], lines 301-309: the handler given to the backend client.
    It always rethrows. *)
Definition onApiError (e : ApiError) (w : World) : Outcome :=
  let w := shutdown w in
  let w := if isStatus 429 e
           then sendErrorMessage (translate "RATE_LIMIT_EXCEEDED" "errors") w
           else w in
  Threw e w.

(** The [for] loops of lines 95-104 and 180-189: each value becomes a new
    [Started] task with a fresh identifier and is sent. *)
Fixpoint sendNewTasks (values : list string) (w : World) : World :=
  match values with
  | [] => w
  | v :: rest =>
      let (id, w) := freshId w in
      let task := mkTask id v TASK_STATUS_STARTED None in
      sendNewTasks rest (sendMessage (MESSAGE_TYPE_TASK task) w)
  end.

(** [startGoal], lines 88-111.  The [catch] ends [startGoal] normally. *)
Definition startGoal (w : World) : World :=
  let w := sendGoalMessage w in
  let w := sendThinkingMessage w in
  let answer := getInitialTasks (List.length (requests (env w))) in
  let w := logRequest ReqInitialTasks w in
  match answer with
  | Ok taskValues => sendNewTasks taskValues w
  | Fail e =>
      let w := sendErrorMessage (getMessageFromError e) w in
      shutdown w
  end.

(** Lines 166-200 of [loop]: the follow-up tasks of [currentTask]. *)
Definition addNewTasks (currentTask : Task) (result : string) (w : World) : World :=
  let w := sendThinkingMessage w in
  let remaining := map value (getRemainingTasks w) in
  let answer :=
    getAdditionalTasks (List.length (requests (env w)))
      (value currentTask) remaining (completedTasks (this w)) result in
  let w := logRequest
             (ReqAdditionalTasks (value currentTask) remaining
                (completedTasks (this w)) result) w in
  match answer with
  | Ok newTasks =>
      let w := sendNewTasks newTasks w in
      if Nat.eqb (List.length newTasks) 0
      then sendMessage (MESSAGE_TYPE_TASK (withStatus TASK_STATUS_FINAL currentTask)) w
      else w
  | Fail e =>
      let w := sendErrorMessage (translate "ERROR_ADDING_ADDITIONAL_TASKS" "errors") w in
      sendMessage (MESSAGE_TYPE_TASK (withStatus TASK_STATUS_FINAL currentTask)) w
  end.

(** Lines 157-164 of [loop]: the task is executed; an exception of the
    backend leaves [loop].  [value] is a string, so the
    fallback of line 164 to the empty string never applies. *)
Definition executeCurrent (currentTask : Task) (analysis : Analysis) (w : World) : Step :=
  let answer := executeTask (List.length (requests (env w))) (value currentTask) analysis in
  let w := logRequest (ReqExecuteTask (value currentTask) analysis) w in
  match answer with
  | Fail e => Done (Threw e w)
  | Ok result =>
      let w := sendMessage
                 (MESSAGE_TYPE_TASK
                    (withStatus TASK_STATUS_COMPLETED (withInfo result currentTask))) w in
      let w := push_completedTasks (value currentTask) w in
      Again (addNewTasks currentTask result w)
  end.

(** Lines 137-155 of [loop]: the current task is announced and, when web
    search is enabled, analysed. *)
Definition defaultAnalysis : Analysis :=
  mkAnalysis "I'll just think about it..." "reason" EmptyString.

Definition runCurrent (currentTask : Task) (w : World) : Step :=
  let w := sendMessage (MESSAGE_TYPE_TASK (withStatus TASK_STATUS_EXECUTING currentTask)) w in
  let w := sendThinkingMessage w in
  if isWebSearchEnabled (env w) then
    let answer := analyzeTask (List.length (requests (env w))) (value currentTask) in
    let w := logRequest (ReqAnalyzeTask (value currentTask)) w in
    match answer with
    | Fail e => Done (Threw e w)
    | Ok analysis => executeCurrent currentTask analysis (sendAnalysisMessage analysis w)
    end
  else executeCurrent currentTask defaultAnalysis w.

(** The body of [loop], lines 113-200, up to its recursive call.  The
    store is not written between the test of line 120 and the read of
    line 138, so the task read there is the head of the list tested. *)
Definition loopBody (w : World) : Step :=
  let w := conditionalPause w in
  if negb (isRunning (this w)) then Done (Returned w)
  else
    match getRemainingTasks w with
    | [] =>
        let w := sendCompletedMessage w in
        Done (Returned (shutdown w))
    | currentTask :: _ =>
        let w := set_numLoops (numLoops (this w) + 1) w in
        if Z.gtb (numLoops (this w)) (maxLoops w)
        then
          let w := sendLoopMessage w in
          Done (Returned (shutdown w))
        else runCurrent currentTask w
    end.

(** [loop], lines 113-201.  [None]: the fuel ran out. *)
Fixpoint loop (fuel : nat) (w : World) : option Outcome :=
  match fuel with
  | O => None
  | S fuel' =>
      match loopBody w with
      | Done o => Some o
      | Again w' => loop fuel' w'
      end
  end.

(** [run], lines 76-86. *)
Definition run (fuel : nat) (w : World) : option Outcome :=
  let w := if negb (isRunning (this w))
           then startGoal (set_isRunning true w)
           else w in
  match loop fuel w with
  | Some (Returned w) =>
      Some (Returned
              (if AgentMode_eqb (mode (this w)) PAUSE_MODE && negb (isRunning (this w))
               then handlePause (playbackControl (this w)) w
               else w))
  | other => other
  end.

End Methods.

(** ** Observations on a world *)

Definition stepWorld (s : Step) : World :=
  match s with Done o => worldOf o | Again w => w end.

Definition isGoalMessage (m : Message) : bool :=
  match m with MESSAGE_TYPE_GOAL _ => true | _ => false end.

Definition isInitialRequest (r : Request) : bool :=
  match r with ReqInitialTasks => true | _ => false end.

(** How many goal messages the sink has received, and how many initial
    decompositions the backend has been asked for. *)
Definition goalMessages (w : World) : nat :=
  List.length (filter isGoalMessage (messages (env w))).

Definition initialRequests (w : World) : nat :=
  List.length (filter isInitialRequest (requests (env w))).

(** The two traces of a goal bootstrap. *)
Definition bootstraps (w : World) : nat * nat := (goalMessages w, initialRequests w).

(** The sink of [w'] holds what the sink of [w] held, and maybe more. *)
Definition extends (w w' : World) : Prop :=
  exists more, messages (env w') = (messages (env w) ++ more)%list.

(** The iterations that can still pass the budget check. *)
Definition budgetLeft `{Imports} (w : World) : nat :=
  Z.to_nat (maxLoops w + 1 - numLoops (this w)).

(** ** Concrete surroundings, for the examples *)

(** String tables that answer with the key itself, and a default budget. *)
Definition keyTables : Imports :=
  {| translate := fun key _ => key; DEFAULT_MAX_LOOPS_FREE := 4 |}.

(** A backend whose initial decomposition is refused with status 429. *)
Definition quotaApi : AgentApi :=
  {| getInitialTasks := fun _ => Fail (AxiosError (Some 429));
     analyzeTask := fun _ _ => Fail OtherError;
     executeTask := fun _ _ _ => Fail OtherError;
     getAdditionalTasks := fun _ _ _ _ _ => Fail OtherError |}.

(** A backend that plans a trip: two initial tasks, every task executed,
    every follow-up generation failing. *)
Definition tripApi : AgentApi :=
  {| getInitialTasks := fun _ => Ok ["Book flight"; "Book hotel"];
     analyzeTask := fun _ _ => Ok defaultAnalysis;
     executeTask := fun _ _ _ => Ok "done";
     getAdditionalTasks := fun _ _ _ _ _ => Fail OtherError |}.

(** A backend whose initial decomposition is empty. *)
Definition idleApi : AgentApi :=
  {| getInitialTasks := fun _ => Ok [];
     analyzeTask := fun _ _ => Ok defaultAnalysis;
     executeTask := fun _ _ _ => Ok "done";
     getAdditionalTasks := fun _ _ _ _ _ => Ok [] |}.

Definition freshEnv : Env := mkEnv [] [] 0 [] false 0 [].

(** A new agent for the goal "Plan a trip", in front of an empty store. *)
Definition newWorld (customMaxLoops0 : option Z) (mode0 : option AgentMode)
    (playbackControl0 : option AgentPlaybackControl) : World :=
  mkWorld (constructor "Plan a trip" customMaxLoops0 mode0 playbackControl0) freshEnv.

(** The two tasks of the trip, as the bootstrap leaves them in the store. *)
Definition flight : Task := mkTask 0 "Book flight" TASK_STATUS_STARTED None.
Definition hotel : Task := mkTask 1 "Book hotel" TASK_STATUS_STARTED None.

Definition tripEnv : Env := mkEnv [flight; hotel] [] 0 [] false 2 [].

(** A running agent in front of the two pending tasks of the trip. *)
Definition tripWorld (customMaxLoops0 : option Z) (mode0 : AgentMode)
    (control : AgentPlaybackControl) : World :=
  mkWorld (mkAgent "Plan a trip" [] customMaxLoops0 true 0 mode0 control) tripEnv.

(** The same agent with a budget of one loop, after that loop: the flight
    is done, the hotel is pending. *)
Definition spentWorld : World :=
  mkWorld (mkAgent "Plan a trip" ["Book flight"] (Some 1) true 1 AUTOMATIC_MODE AGENT_PLAY)
    (mkEnv [withStatus TASK_STATUS_FINAL flight; hotel] [] 0 [] false 2 []).

(** A running agent in front of an empty store. *)
Definition idleWorld (mode0 : AgentMode) (control : AgentPlaybackControl) : World :=
  mkWorld (mkAgent "Plan a trip" [] None true 0 mode0 control) freshEnv.

(** [run] followed by a second [run] on the world the first one left. *)
Definition runTwice `{Imports} `{AgentApi} (fuel : nat) (w : World) : option Outcome :=
  match run fuel w with
  | Some o => run fuel (worldOf o)
  | None => None
  end.

(** The fields of the agent that only [conditionalPause], the budget
    check and the outside levers write. *)
Definition controls (w : World) : string * option Z * bool * Z * AgentMode * AgentPlaybackControl :=
  let a := this w in
  (goal a, customMaxLoops a, isRunning a, numLoops a, mode a, playbackControl a).

(** ** More observations *)

(** The tasks that the [for] loops of lines 95-104 and 180-189 make of a
    list of values, the first identifier handed out being [id]. *)
Fixpoint newTasksFrom (id : nat) (values : list string) : list Task :=
  match values with
  | [] => []
  | v :: rest => mkTask id v TASK_STATUS_STARTED None :: newTasksFrom (S id) rest
  end.

Definition isExecuteRequest (r : Request) : bool :=
  match r with ReqExecuteTask _ _ => true | _ => false end.

(** How many task executions the backend has been asked for. *)
Definition executeRequests (w : World) : nat :=
  List.length (filter isExecuteRequest (requests (env w))).

(** The backend has been asked what it had been asked in [w], and then
    only requests that satisfy [P]. *)
Definition asks (P : Request -> Prop) (w w' : World) : Prop :=
  exists more, requests (env w') = (requests (env w) ++ more)%list /\ Forall P more.

(** The hooks of the owner and the toggle of [useAgentStore]: what the
    loop reads or calls outside the store and the sink. *)
Definition hooks (w : World) : nat * list AgentPlaybackControl * bool :=
  (shutdownCalls (env w), handlePauseCalls (env w), isWebSearchEnabled (env w)).


(** A request made without web search: never an analysis, and an
    execution only with the default analysis. *)
Definition plainRequest (r : Request) : Prop :=
  match r with
  | ReqAnalyzeTask _ => False
  | ReqExecuteTask _ a => a = mkAnalysis "I'll just think about it..." "reason" EmptyString
  | _ => True
  end.

(** ** The CLI helper [isValidSkKey] *)

(** The character class [[a-zA-Z0-9]]. *)
Definition isAlnum (c : Ascii.ascii) : bool :=
  let n := Ascii.nat_of_ascii c in
  ((48 <=? n)%nat && (n <=? 57)%nat)
  || ((65 <=? n)%nat && (n <=? 90)%nat)
  || ((97 <=? n)%nat && (n <=? 122)%nat).

(** [[a-zA-Z0-9]{n}] at the head of [s]: what is left of [s] after it. *)
Fixpoint matchAlnums (n : nat) (s : string) : option string :=
  match n with
  | O => Some s
  | S n' =>
      match s with
      | String c rest => if isAlnum c then matchAlnums n' rest else None
      | EmptyString => None
      end
  end.

(** [isValidSkKey], lines 15-18 of the CLI helpers: the test of
    [/^sk-[a-zA-Z0-9]{48}$/] on a string.  Without the [m] flag, [$] is
    the end of the input. *)
Definition isValidSkKey (apikey : string) : bool :=
  match apikey with
  | String c1 (String c2 (String c3 rest)) =>
      Ascii.eqb c1 "s" && Ascii.eqb c2 "k" && Ascii.eqb c3 "-" &&
      match matchAlnums 48 rest with
      | Some EmptyString => true
      | _ => false
      end
  | _ => false
  end.

Definition allAlnum (s : string) : Prop :=
  Forall (fun c => isAlnum c = true) (list_ascii_of_string s).

(** A key of the right shape, for the examples. *)
Definition sampleKey : string :=
  "sk-abcdefghijklmnopqrstuvwxyzABCDEFGHIJKLMNOPQRSTUV".

(** A backend that derives one more task from each task done. *)
Definition packingApi : AgentApi :=
  {| getInitialTasks := fun _ => Ok ["Book flight"; "Book hotel"];
     analyzeTask := fun _ _ => Ok defaultAnalysis;
     executeTask := fun _ _ _ => Ok "done";
     getAdditionalTasks := fun _ _ _ _ _ => Ok ["Pack bags"] |}.

(** * Properties *)

Section Properties.
Context {imports : Imports} {api : AgentApi}.

(** ** What each operation leaves alone *)

Lemma sendMessage_running m w :
  isRunning (this w) = true -> sendMessage m w = renderMessage m w.
Proof. unfold sendMessage. intros ->. reflexivity. Qed.

Lemma sendMessage_stopped m w :
  isRunning (this w) = false -> sendMessage m w = w.
Proof. unfold sendMessage. intros ->. reflexivity. Qed.

Lemma this_sendMessage m w : this (sendMessage m w) = this w.
Proof. unfold sendMessage. destruct (isRunning (this w)); reflexivity. Qed.

Lemma this_shutdown w : this (shutdown w) = this w.
Proof. reflexivity. Qed.

Lemma this_logRequest r w : this (logRequest r w) = this w.
Proof. reflexivity. Qed.

Lemma this_sendNewTasks values : forall w, this (sendNewTasks values w) = this w.
Proof.
  induction values as [|v rest IH]; intros w; simpl; [reflexivity|].
  rewrite IH, this_sendMessage. reflexivity.
Qed.

Lemma controls_this w w' : this w' = this w -> controls w' = controls w.
Proof. unfold controls. intros ->. reflexivity. Qed.

Lemma controls_push v w : controls (push_completedTasks v w) = controls w.
Proof. reflexivity. Qed.

Lemma this_addNewTasks t r w : this (addNewTasks t r w) = this w.
Proof.
  unfold addNewTasks.
  destruct (getAdditionalTasks _ _ _ _ _) as [newTasks|e].
  - destruct (Nat.eqb _ _);
      rewrite ?this_sendMessage, this_sendNewTasks, this_logRequest;
      apply this_sendMessage.
  - unfold sendErrorMessage.
    rewrite !this_sendMessage, this_logRequest. apply this_sendMessage.
Qed.

Lemma controls_executeCurrent t a w :
  controls (stepWorld (executeCurrent t a w)) = controls w.
Proof.
  unfold executeCurrent.
  destruct (executeTask _ _ _) as [result|e]; simpl.
  - rewrite (controls_this _ _ (this_addNewTasks _ _ _)), controls_push.
    apply controls_this. rewrite this_sendMessage. reflexivity.
  - reflexivity.
Qed.

Lemma controls_runCurrent t w :
  controls (stepWorld (runCurrent t w)) = controls w.
Proof.
  unfold runCurrent.
  set (w1 := sendThinkingMessage _).
  assert (H1 : controls w1 = controls w).
  { apply controls_this. unfold w1, sendThinkingMessage.
    rewrite !this_sendMessage. reflexivity. }
  destruct (isWebSearchEnabled (env w1)).
  - destruct (analyzeTask _ _) as [analysis|e]; simpl.
    + rewrite controls_executeCurrent, <- H1.
      apply controls_this. unfold sendAnalysisMessage.
      rewrite this_sendMessage. reflexivity.
    + exact H1.
  - rewrite controls_executeCurrent. exact H1.
Qed.

(** The shape of a pass that reaches the recursive call: it went through
    the pause, running, completion and budget checks. *)
Lemma loopBody_Again w w' :
  loopBody w = Again w' ->
  exists currentTask rest,
    isRunning (this (conditionalPause w)) = true /\
    getRemainingTasks (conditionalPause w) = currentTask :: rest /\
    numLoops (this (conditionalPause w)) + 1 <= maxLoops (conditionalPause w) /\
    runCurrent currentTask
      (set_numLoops (numLoops (this (conditionalPause w)) + 1) (conditionalPause w))
    = Again w'.
Proof.
  unfold loopBody. intros H.
  destruct (isRunning (this (conditionalPause w))) eqn:Hrun; simpl in H; [|discriminate].
  destruct (getRemainingTasks (conditionalPause w)) as [|t rest] eqn:Hrem; [discriminate|].
  match type of H with (if ?c then _ else _) = _ => destruct c eqn:Hgt end;
    [discriminate|].
  exists t, rest. repeat split; try assumption.
  rewrite Z.gtb_ltb in Hgt. apply Z.ltb_ge in Hgt. exact Hgt.
Qed.

Lemma conditionalPause_frame w :
  env (conditionalPause w) = env w /\
  numLoops (this (conditionalPause w)) = numLoops (this w) /\
  mode (this (conditionalPause w)) = mode (this w) /\
  customMaxLoops (this (conditionalPause w)) = customMaxLoops (this w) /\
  completedTasks (this (conditionalPause w)) = completedTasks (this w) /\
  goal (this (conditionalPause w)) = goal (this w).
Proof.
  unfold conditionalPause.
  destruct w as [[g ct cm r n md pc] e]; destruct md, pc; simpl; repeat split.
Qed.

Lemma maxLoops_conditionalPause w : maxLoops (conditionalPause w) = maxLoops w.
Proof.
  unfold maxLoops.
  destruct (conditionalPause_frame w) as (_ & _ & _ & -> & _). reflexivity.
Qed.

Lemma getRemainingTasks_conditionalPause w :
  getRemainingTasks (conditionalPause w) = getRemainingTasks w.
Proof.
  unfold getRemainingTasks.
  destruct (conditionalPause_frame w) as (-> & _). reflexivity.
Qed.

Lemma numLoops_conditionalPause w :
  numLoops (this (conditionalPause w)) = numLoops (this w).
Proof. apply conditionalPause_frame. Qed.

Lemma maxLoops_controls w w' : controls w' = controls w -> maxLoops w' = maxLoops w.
Proof. unfold controls, maxLoops. intros H. injection H as _ -> _ _ _ _. reflexivity. Qed.

Lemma numLoops_controls w w' :
  controls w' = controls w -> numLoops (this w') = numLoops (this w).
Proof. unfold controls. intros H. injection H as _ _ _ -> _ _. reflexivity. Qed.

(** A pass that reaches the recursive call has counted one more loop and
    is within the budget. *)
Lemma loopBody_Again_counter w w' :
  loopBody w = Again w' ->
  numLoops (this w') = numLoops (this w) + 1 /\
  maxLoops w' = maxLoops w /\
  numLoops (this w') <= maxLoops w'.
Proof.
  intros H. destruct (loopBody_Again _ _ H) as (t & rest & _ & _ & Hle & Hrun).
  pose proof (controls_runCurrent t
    (set_numLoops (numLoops (this (conditionalPause w)) + 1) (conditionalPause w))) as Hc.
  rewrite Hrun in Hc. simpl in Hc.
  pose proof (numLoops_controls _ _ Hc) as Hn.
  pose proof (maxLoops_controls _ _ Hc) as Hm.
  simpl in Hn. unfold maxLoops in Hm at 2. simpl in Hm.
  fold (maxLoops (conditionalPause w)) in Hm.
  rewrite maxLoops_conditionalPause in *. rewrite numLoops_conditionalPause in *.
  repeat split; lia.
Qed.

(** [loop] returns: the budget bounds the passes that recurse. *)
Lemma loop_returns fuel : forall w,
  (budgetLeft w < fuel)%nat -> exists o, loop fuel w = Some o.
Proof.
  induction fuel as [|fuel IH]; intros w Hfuel; [lia|].
  simpl. destruct (loopBody w) as [o|w'] eqn:Hbody; [eauto|].
  apply IH. destruct (loopBody_Again_counter _ _ Hbody) as (Hn & Hm & Hle).
  unfold budgetLeft in *. rewrite Hm, Hn. rewrite Hm, Hn in Hle. lia.
Qed.

(** More fuel does not change a result. *)
Lemma loop_more_fuel fuel : forall w o,
  loop fuel w = Some o -> loop (S fuel) w = Some o.
Proof.
  induction fuel as [|fuel IH]; intros w o H; [discriminate|].
  simpl in H. change (loop (S (S fuel)) w)
    with (match loopBody w with Done o => Some o | Again w' => loop (S fuel) w' end).
  destruct (loopBody w) as [o'|w']; [exact H|]. apply IH. exact H.
Qed.

(** ** The budget check *)


Lemma env_conditionalPause w : env (conditionalPause w) = env w.
Proof. apply conditionalPause_frame. Qed.

(** A pass that gets through the pause, running and completion checks
    counts one loop, whatever happens next. *)
Lemma loopBody_counts_one (w : World) :
  isRunning (this (conditionalPause w)) = true ->
  getRemainingTasks w <> [] ->
  numLoops (this (stepWorld (loopBody w))) = numLoops (this w) + 1.
Proof.
  intros Hrun Hpending.
  unfold loopBody. rewrite Hrun. simpl negb. cbv iota.
  rewrite getRemainingTasks_conditionalPause.
  destruct (getRemainingTasks w) as [|t rest]; [congruence|].
  match goal with |- context [if ?c then _ else _] => destruct c end.
  - simpl. unfold sendLoopMessage. rewrite this_sendMessage. simpl.
    rewrite numLoops_conditionalPause. reflexivity.
  - rewrite (numLoops_controls _ _ (controls_runCurrent _ _)). simpl.
    rewrite numLoops_conditionalPause. reflexivity.
Qed.

(** Any other pass leaves the counter alone. *)
Lemma loopBody_counts_none (w : World) :
  isRunning (this (conditionalPause w)) = false \/ getRemainingTasks w = [] ->
  numLoops (this (stepWorld (loopBody w))) = numLoops (this w).
Proof.
  intros H. unfold loopBody.
  destruct (isRunning (this (conditionalPause w))) eqn:Hrun; simpl.
  - destruct H as [H|H]; [discriminate|].
    rewrite getRemainingTasks_conditionalPause, H. simpl.
    unfold sendCompletedMessage. rewrite this_sendMessage.
    apply numLoops_conditionalPause.
  - apply numLoops_conditionalPause.
Qed.

Lemma loopBody_counter_bounds (w : World) :
  numLoops (this w) <= numLoops (this (stepWorld (loopBody w))) <= numLoops (this w) + 1.
Proof.
  destruct (isRunning (this (conditionalPause w))) eqn:Hrun.
  - destruct (getRemainingTasks w) as [|t rest] eqn:Hrem.
    + rewrite loopBody_counts_none by (right; exact Hrem). lia.
    + rewrite loopBody_counts_one by (rewrite ?Hrem; congruence). lia.
  - rewrite loopBody_counts_none by (left; exact Hrun). lia.
Qed.

(** Over a whole call of [loop] the counter never goes down and never
    exceeds the budget by more than the one increment of the budget
    check. *)
Lemma loop_counter_bound fuel : forall w o,
  loop fuel w = Some o ->
  numLoops (this w) <= numLoops (this (worldOf o))
    <= Z.max (numLoops (this w)) (maxLoops w) + 1.
Proof.
  induction fuel as [|fuel IH]; intros w o H; [discriminate|].
  simpl in H. pose proof (loopBody_counter_bounds w) as Hb.
  destruct (loopBody w) as [o'|w'] eqn:Hbody.
  - injection H as <-. simpl in Hb. lia.
  - destruct (loopBody_Again_counter _ _ Hbody) as (Hn & Hm & Hle).
    specialize (IH _ _ H). rewrite Hm in IH, Hle. lia.
Qed.

(** C1.  In every pass of the loop that gets through the pause, running
    and completion checks, the counter [numLoops] grows by exactly one; a
    pass that goes on to the recursive call is within the budget; when
    the incremented counter exceeds [maxLoops], the pass ends with the
    budget notice sent and [shutdown] called, the task store, the
    completed-task history and the requests to the backend being what they
    were: no task was selected or changed; and over a whole call of
    [loop] the counter never decreases and ends at most one above the
    budget. *)
Theorem loop_counter_and_budget (w : World) :
  isRunning (this (conditionalPause w)) = true ->
  getRemainingTasks w <> [] ->
  numLoops (this (stepWorld (loopBody w))) = numLoops (this w) + 1 /\
  (forall w', loopBody w = Again w' -> numLoops (this w') <= maxLoops w) /\
  (numLoops (this w) + 1 > maxLoops w ->
   exists w',
     loopBody w = Done (Returned w') /\
     messages (env w') =
       (messages (env w) ++
          [MESSAGE_TYPE_SYSTEM (translate "DEMO_LOOPS_REACHED" "errors")])%list /\
     shutdownCalls (env w') = S (shutdownCalls (env w)) /\
     tasks (env w') = tasks (env w) /\
     requests (env w') = requests (env w) /\
     completedTasks (this w') = completedTasks (this w) /\
     numLoops (this w') = numLoops (this w) + 1) /\
  (forall fuel o,
     loop fuel w = Some o ->
     numLoops (this w) <= numLoops (this (worldOf o))
       <= Z.max (numLoops (this w)) (maxLoops w) + 1).
Proof.
  intros Hrun Hpending.
  split; [|split; [|split]].
  - apply loopBody_counts_one; assumption.
  - intros w' H. destruct (loopBody_Again_counter _ _ H) as (_ & Hm & Hle). lia.
  - intros Hover. unfold loopBody. rewrite Hrun. simpl negb. cbv iota.
    rewrite getRemainingTasks_conditionalPause.
    destruct (getRemainingTasks w) as [|t rest]; [congruence|].
    set (w1 := set_numLoops _ _).
    assert (Hgt : Z.gtb (numLoops (this w1)) (maxLoops w1) = true).
    { unfold w1. simpl numLoops. rewrite Z.gtb_ltb. apply Z.ltb_lt.
      change (maxLoops (set_numLoops (numLoops (this (conditionalPause w)) + 1)
                          (conditionalPause w)))
        with (maxLoops (conditionalPause w)).
      rewrite maxLoops_conditionalPause, numLoops_conditionalPause. lia. }
    rewrite Hgt. eexists. split; [reflexivity|].
    assert (Hr : isRunning (this w1) = true) by exact Hrun.
    unfold sendLoopMessage. rewrite (sendMessage_running _ _ Hr).
    simpl. rewrite env_conditionalPause.
    destruct (conditionalPause_frame w) as (_ & Hn & _ & _ & Hc & _).
    rewrite Hc, Hn. repeat split.
  - intros fuel o. apply loop_counter_bound.
Qed.

(** ** The pause check *)

Lemma conditionalPause_paused (w : World) :
  mode (this w) = PAUSE_MODE -> playbackControl (this w) = AGENT_PAUSE ->
  conditionalPause w = set_isRunning false w.
Proof.
  destruct w as [[g ct cm r n md pc] e]. simpl. intros -> ->. reflexivity.
Qed.

Lemma conditionalPause_play (w : World) :
  mode (this w) = PAUSE_MODE -> playbackControl (this w) = AGENT_PLAY ->
  conditionalPause w = set_playbackControl AGENT_PAUSE (set_isRunning true w).
Proof.
  destruct w as [[g ct cm r n md pc] e]. simpl. intros -> ->. reflexivity.
Qed.

Lemma conditionalPause_automatic (w : World) :
  mode (this w) = AUTOMATIC_MODE -> conditionalPause w = w.
Proof.
  destruct w as [[g ct cm r n md pc] e]. simpl. intros ->. reflexivity.
Qed.

Lemma loopBody_paused (w : World) :
  mode (this w) = PAUSE_MODE -> playbackControl (this w) = AGENT_PAUSE ->
  loopBody w = Done (Returned (set_isRunning false w)).
Proof.
  intros Hm Hc. unfold loopBody.
  rewrite (conditionalPause_paused _ Hm Hc). reflexivity.
Qed.

(** A pass that reaches the recursive call leaves the mode alone and the
    playback control as the pause check set it. *)
Lemma loopBody_Again_controls w w' :
  loopBody w = Again w' ->
  mode (this w') = mode (this w) /\
  playbackControl (this w') = playbackControl (this (conditionalPause w)).
Proof.
  intros H. destruct (loopBody_Again _ _ H) as (t & rest & _ & _ & _ & Hrun).
  pose proof (controls_runCurrent t
    (set_numLoops (numLoops (this (conditionalPause w)) + 1) (conditionalPause w))) as Hc.
  rewrite Hrun in Hc. simpl in Hc. unfold controls in Hc. simpl in Hc.
  injection Hc as _ _ _ _ Hmode Hpc.
  destruct (conditionalPause_frame w) as (_ & _ & Hm & _).
  rewrite Hmode, Hpc, Hm. split; reflexivity.
Qed.

(** C3.  A pass of the loop started in Stepwise mode with the playback
    control at Pause clears the running flag and returns; nothing else
    changes: the counter, the completed-task history and the playback
    control are what they were, and the surroundings (task store, messages
    received by the sink, calls of the shutdown and pause hooks, requests
    to the backend) are untouched. *)
Theorem loop_pauses_without_effect (fuel : nat) (w : World) :
  mode (this w) = PAUSE_MODE ->
  playbackControl (this w) = AGENT_PAUSE ->
  exists w',
    loop (S fuel) w = Some (Returned w') /\
    isRunning (this w') = false /\
    numLoops (this w') = numLoops (this w) /\
    completedTasks (this w') = completedTasks (this w) /\
    playbackControl (this w') = AGENT_PAUSE /\
    mode (this w') = PAUSE_MODE /\
    env w' = env w /\
    w' = set_isRunning false w.
Proof.
  intros Hm Hc. exists (set_isRunning false w).
  simpl loop. rewrite (loopBody_paused _ Hm Hc).
  simpl. rewrite Hm, Hc. repeat split.
Qed.

(** C4.  Setting the playback control twice to the same value leaves the
    world that setting it once leaves, so every later [run] behaves the
    same.  In Stepwise mode a pending Play lets the pause check through
    with the running flag set and the control put back to Pause; if the
    pass goes on to the recursive call, that next pass pauses at once, so
    [loop] returns after at most one counted iteration and leaves the
    control at Pause. *)
Theorem step_authorization (fuel : nat) (c : AgentPlaybackControl) (w : World) :
  (updatePlayBackControl c (updatePlayBackControl c w) = updatePlayBackControl c w /\
   run fuel (updatePlayBackControl c (updatePlayBackControl c w)) =
   run fuel (updatePlayBackControl c w)) /\
  (mode (this w) = PAUSE_MODE ->
   playbackControl (this w) = AGENT_PLAY ->
   isRunning (this (conditionalPause w)) = true /\
   playbackControl (this (conditionalPause w)) = AGENT_PAUSE /\
   (forall w', loopBody w = Again w' ->
               loopBody w' = Done (Returned (set_isRunning false w'))) /\
   exists o,
     loop (S (S fuel)) w = Some o /\
     playbackControl (this (worldOf o)) = AGENT_PAUSE /\
     numLoops (this w) <= numLoops (this (worldOf o)) <= numLoops (this w) + 1).
Proof.
  split.
  - assert (H : updatePlayBackControl c (updatePlayBackControl c w)
                = updatePlayBackControl c w) by reflexivity.
    split; [exact H | rewrite H; reflexivity].
  - intros Hm Hc.
    pose proof (conditionalPause_play _ Hm Hc) as Hcp.
    assert (Hnext : forall w', loopBody w = Again w' ->
                               loopBody w' = Done (Returned (set_isRunning false w'))).
    { intros w' H. destruct (loopBody_Again_controls _ _ H) as (Hm' & Hc').
      apply loopBody_paused; [congruence|]. rewrite Hc', Hcp. reflexivity. }
    rewrite Hcp. repeat split; try exact Hnext.
    pose proof (loopBody_counter_bounds w) as Hb.
    change (loop (S (S fuel)) w)
      with (match loopBody w with Done o => Some o | Again w' => loop (S fuel) w' end).
    destruct (loopBody w) as [o|w'] eqn:Hbody.
    + exists o. split; [reflexivity|]. split; [|exact Hb].
      (* the pass ended the call: the control is as the pause check left it *)
      unfold loopBody in Hbody. rewrite Hcp in Hbody. simpl negb in Hbody. cbv iota in Hbody.
      destruct (getRemainingTasks _) as [|t rest].
      * injection Hbody as <-. cbn [worldOf]. rewrite this_shutdown.
        unfold sendCompletedMessage. rewrite this_sendMessage. reflexivity.
      * match type of Hbody with (if ?g then _ else _) = _ => destruct g end.
        -- injection Hbody as <-. cbn [worldOf]. rewrite this_shutdown.
           unfold sendLoopMessage. rewrite this_sendMessage. reflexivity.
        -- pose proof (controls_runCurrent t
             (set_numLoops
                (numLoops (this (set_playbackControl AGENT_PAUSE (set_isRunning true w))) + 1)
                (set_playbackControl AGENT_PAUSE (set_isRunning true w)))) as Hk.
           rewrite Hbody in Hk. unfold controls in Hk. simpl in Hk.
           injection Hk as _ _ _ _ _ Hpc. exact Hpc.
    + exists (Returned (set_isRunning false w')).
      simpl loop. rewrite (Hnext _ eq_refl). split; [reflexivity|].
      destruct (loopBody_Again_controls _ _ Hbody) as (_ & Hc').
      simpl. rewrite Hc', Hcp. split; [reflexivity|]. exact Hb.
Qed.

(** ** The completion check *)

Lemma loopBody_completion (w : World) :
  isRunning (this (conditionalPause w)) = true ->
  getRemainingTasks w = [] ->
  loopBody w = Done (Returned (shutdown (sendCompletedMessage (conditionalPause w)))).
Proof.
  intros Hrun Hrem. unfold loopBody. rewrite Hrun. simpl negb. cbv iota.
  rewrite getRemainingTasks_conditionalPause, Hrem. reflexivity.
Qed.

(** C2, amended.  In every pass of the loop that leaves the pause check
    with the running flag true (Automatic mode entered with the flag true,
    or Stepwise mode with the control at Play), an empty pending-task set
    makes the pass send the completion notice and call [shutdown], the
    counter and the task store being what they were, so that no task is
    marked Executing.  In particular, a [run] entered with the flag false
    whose initial decomposition is empty, in front of a store without
    pending task, ends this way in its first pass, provided that pass
    gets through the pause check. *)
Theorem completion_check (fuel : nat) (w w0 : World) :
  (isRunning (this (conditionalPause w)) = true ->
   getRemainingTasks w = [] ->
   exists w',
     loop (S fuel) w = Some (Returned w') /\
     messages (env w') =
       (messages (env w) ++
          [MESSAGE_TYPE_SYSTEM (translate "ALL_TASKS_COMPLETETD" "errors")])%list /\
     shutdownCalls (env w') = S (shutdownCalls (env w)) /\
     numLoops (this w') = numLoops (this w) /\
     tasks (env w') = tasks (env w) /\
     requests (env w') = requests (env w)) /\
  (isRunning (this w0) = false ->
   getInitialTasks (List.length (requests (env w0))) = Ok [] ->
   getRemainingTasks w0 = [] ->
   isRunning (this (conditionalPause (set_isRunning true w0))) = true ->
   exists w',
     run (S fuel) w0 = Some (Returned w') /\
     messages (env w') =
       (messages (env w0) ++
          [MESSAGE_TYPE_GOAL (goal (this w0)); MESSAGE_TYPE_THINKING;
           MESSAGE_TYPE_SYSTEM (translate "ALL_TASKS_COMPLETETD" "errors")])%list /\
     shutdownCalls (env w') = S (shutdownCalls (env w0)) /\
     numLoops (this w') = numLoops (this w0) /\
     tasks (env w') = tasks (env w0)).
Proof.
  split.
  - intros Hrun Hrem. eexists. split.
    + simpl loop. rewrite (loopBody_completion _ Hrun Hrem). reflexivity.
    + unfold sendCompletedMessage. rewrite (sendMessage_running _ _ Hrun).
      simpl. rewrite env_conditionalPause, numLoops_conditionalPause. repeat split.
  - intros Hstopped Hinit Hrem Hpass.
    destruct w0 as [[g ct cm r n md pc] [ts ms sc hp ws ni rq]].
    simpl in Hstopped, Hinit. subst r.
    unfold getRemainingTasks in Hrem. simpl in Hrem.
    unfold run, startGoal, sendGoalMessage, sendThinkingMessage, sendMessage.
    simpl. rewrite Hinit. simpl.
    destruct md, pc; try discriminate Hpass;
      unfold loopBody, conditionalPause, getRemainingTasks; simpl; rewrite Hrem;
      simpl; eexists; (split; [reflexivity|]); simpl;
      rewrite <- !app_assoc; repeat split.
Qed.

(** ** The guard of [sendMessage] *)

Lemma sendNewTasks_stopped values : forall w,
  isRunning (this w) = false ->
  messages (env (sendNewTasks values w)) = messages (env w) /\
  tasks (env (sendNewTasks values w)) = tasks (env w).
Proof.
  induction values as [|v rest IH]; intros w Hstop; simpl; [split; reflexivity|].
  rewrite sendMessage_stopped by exact Hstop.
  apply (IH (snd (freshId w))). exact Hstop.
Qed.

Lemma loopBody_stopped (w : World) :
  isRunning (this w) = false -> mode (this w) = AUTOMATIC_MODE ->
  loopBody w = Done (Returned w).
Proof.
  intros Hstop Hm. unfold loopBody.
  rewrite (conditionalPause_automatic _ Hm), Hstop. reflexivity.
Qed.

(** C10.  The sink receives a message only from [sendMessage] with the
    running flag true: a call that changes the sink had the flag true, and
    with the flag false [sendMessage] and every sender built on it leave
    the world as it is.  So [stopAgent] on an agent that is not running
    sends no manual-shutdown notice and still calls [shutdown] once; after
    [stopAgent] the flag is false, whatever is sent next is dropped, and
    in Automatic mode the next pass of the loop returns at once. *)
Theorem messages_only_while_running
    (fuel : nat) (m : Message) (error : string) (analysis : Analysis)
    (values : list string) (w : World) :
  (messages (env (sendMessage m w)) <> messages (env w) -> isRunning (this w) = true) /\
  (isRunning (this w) = true ->
   messages (env (sendMessage m w)) = (messages (env w) ++ [m])%list) /\
  (isRunning (this w) = false ->
   sendMessage m w = w /\
   sendGoalMessage w = w /\ sendThinkingMessage w = w /\ sendErrorMessage error w = w /\
   sendLoopMessage w = w /\ sendManualShutdownMessage w = w /\
   sendCompletedMessage w = w /\ sendAnalysisMessage analysis w = w /\
   messages (env (sendNewTasks values w)) = messages (env w) /\
   tasks (env (sendNewTasks values w)) = tasks (env w) /\
   stopAgent w = shutdown w /\
   messages (env (stopAgent w)) = messages (env w) /\
   shutdownCalls (env (stopAgent w)) = S (shutdownCalls (env w))) /\
  isRunning (this (stopAgent w)) = false /\
  sendMessage m (stopAgent w) = stopAgent w /\
  (mode (this w) = AUTOMATIC_MODE ->
   loop (S fuel) (stopAgent w) = Some (Returned (stopAgent w))).
Proof.
  split; [|split; [|split; [|split; [|split]]]].
  - unfold sendMessage. destruct (isRunning (this w)); [reflexivity|congruence].
  - intros Hrun. rewrite (sendMessage_running _ _ Hrun). reflexivity.
  - intros Hstop.
    pose proof (sendNewTasks_stopped values w Hstop) as [Hmsg Htasks].
    assert (Hdrop : forall m', sendMessage m' w = w)
      by (intros m'; apply sendMessage_stopped; exact Hstop).
    unfold stopAgent. cbv zeta.
    unfold sendGoalMessage, sendThinkingMessage, sendErrorMessage, sendLoopMessage,
      sendManualShutdownMessage, sendCompletedMessage, sendAnalysisMessage.
    rewrite !Hdrop.
    assert (Hsame : set_isRunning false w = w).
    { destruct w as [[g ct cm r n md pc] e]. simpl in Hstop. subst r. reflexivity. }
    rewrite Hsame. repeat split; assumption.
  - reflexivity.
  - apply sendMessage_stopped. reflexivity.
  - intros Hm. simpl loop. rewrite loopBody_stopped; [reflexivity|reflexivity|].
    unfold stopAgent, sendManualShutdownMessage.
    rewrite this_shutdown. simpl. rewrite this_sendMessage. exact Hm.
Qed.

(** ** The goal bootstrap *)

Lemma bootstraps_env w w' : env w' = env w -> bootstraps w' = bootstraps w.
Proof. unfold bootstraps, goalMessages, initialRequests. intros ->. reflexivity. Qed.

Lemma bootstraps_push v w : bootstraps (push_completedTasks v w) = bootstraps w.
Proof. reflexivity. Qed.

Lemma bootstraps_shutdown w : bootstraps (shutdown w) = bootstraps w.
Proof. reflexivity. Qed.

Lemma bootstraps_handlePause c w : bootstraps (handlePause c w) = bootstraps w.
Proof. reflexivity. Qed.

Lemma bootstraps_sendMessage m w :
  isGoalMessage m = false -> bootstraps (sendMessage m w) = bootstraps w.
Proof.
  intros Hm. unfold sendMessage. destruct (isRunning (this w)); [|reflexivity].
  unfold bootstraps, goalMessages, initialRequests. simpl.
  rewrite filter_app, length_app. simpl. rewrite Hm. simpl.
  rewrite Nat.add_0_r. reflexivity.
Qed.

Lemma bootstraps_logRequest r w :
  isInitialRequest r = false -> bootstraps (logRequest r w) = bootstraps w.
Proof.
  intros Hr. unfold bootstraps, goalMessages, initialRequests. simpl.
  rewrite filter_app, length_app. simpl. rewrite Hr. simpl.
  rewrite Nat.add_0_r. reflexivity.
Qed.

Lemma bootstraps_sendNewTasks values : forall w,
  bootstraps (sendNewTasks values w) = bootstraps w.
Proof.
  induction values as [|v rest IH]; intros w; simpl; [reflexivity|].
  rewrite IH, bootstraps_sendMessage by reflexivity. reflexivity.
Qed.

Lemma bootstraps_addNewTasks t r w : bootstraps (addNewTasks t r w) = bootstraps w.
Proof.
  unfold addNewTasks, sendThinkingMessage, sendErrorMessage.
  destruct (getAdditionalTasks _ _ _ _ _) as [newTasks|e].
  - destruct (Nat.eqb _ _);
      [rewrite bootstraps_sendMessage by reflexivity|];
      rewrite bootstraps_sendNewTasks;
      rewrite bootstraps_logRequest by reflexivity;
      apply bootstraps_sendMessage; reflexivity.
  - rewrite !bootstraps_sendMessage by reflexivity.
    rewrite bootstraps_logRequest by reflexivity.
    apply bootstraps_sendMessage; reflexivity.
Qed.

Lemma bootstraps_executeCurrent t a w :
  bootstraps (stepWorld (executeCurrent t a w)) = bootstraps w.
Proof.
  unfold executeCurrent.
  destruct (executeTask _ _ _) as [result|e]; simpl.
  - rewrite bootstraps_addNewTasks.
    rewrite bootstraps_push.
    rewrite bootstraps_sendMessage, bootstraps_logRequest by reflexivity.
    reflexivity.
  - apply bootstraps_logRequest. reflexivity.
Qed.

Lemma bootstraps_runCurrent t w :
  bootstraps (stepWorld (runCurrent t w)) = bootstraps w.
Proof.
  unfold runCurrent, sendThinkingMessage, sendAnalysisMessage.
  set (w1 := sendMessage MESSAGE_TYPE_THINKING _).
  assert (H1 : bootstraps w1 = bootstraps w)
    by (unfold w1; rewrite !bootstraps_sendMessage by reflexivity; reflexivity).
  destruct (isWebSearchEnabled (env w1)).
  - destruct (analyzeTask _ _) as [analysis|e]; simpl.
    + rewrite bootstraps_executeCurrent, bootstraps_sendMessage,
        bootstraps_logRequest by reflexivity.
      exact H1.
    + rewrite bootstraps_logRequest by reflexivity. exact H1.
  - rewrite bootstraps_executeCurrent. exact H1.
Qed.

Lemma bootstraps_loopBody w : bootstraps (stepWorld (loopBody w)) = bootstraps w.
Proof.
  pose proof (bootstraps_env _ _ (env_conditionalPause w)) as Hcp.
  unfold loopBody.
  destruct (isRunning (this (conditionalPause w))); simpl; [|exact Hcp].
  destruct (getRemainingTasks (conditionalPause w)) as [|t rest]; simpl.
  - rewrite bootstraps_shutdown.
    unfold sendCompletedMessage. rewrite bootstraps_sendMessage by reflexivity.
    exact Hcp.
  - match goal with |- context [if ?c then _ else _] => destruct c end; simpl.
    + rewrite bootstraps_shutdown.
      unfold sendLoopMessage. rewrite bootstraps_sendMessage by reflexivity.
      exact Hcp.
    + rewrite bootstraps_runCurrent. exact Hcp.
Qed.

(** No pass of [loop] sends the goal or asks for the initial tasks. *)
Lemma bootstraps_loop fuel : forall w o,
  loop fuel w = Some o -> bootstraps (worldOf o) = bootstraps w.
Proof.
  induction fuel as [|fuel IH]; intros w o H; [discriminate|].
  simpl in H. pose proof (bootstraps_loopBody w) as Hb.
  destruct (loopBody w) as [o'|w'].
  - injection H as <-. exact Hb.
  - rewrite (IH _ _ H). exact Hb.
Qed.

(** [startGoal] entered with the running flag true sends the goal once
    and asks for the initial tasks once. *)
Lemma bootstraps_startGoal w :
  isRunning (this w) = true ->
  bootstraps (startGoal w) = (S (goalMessages w), S (initialRequests w)).
Proof.
  intros Hrun. unfold startGoal.
  set (w2 := sendThinkingMessage (sendGoalMessage w)).
  assert (H2 : bootstraps (logRequest ReqInitialTasks w2)
               = (S (goalMessages w), S (initialRequests w))).
  { unfold w2, sendThinkingMessage, sendGoalMessage.
    unfold bootstraps at 1. unfold goalMessages, initialRequests.
    rewrite (sendMessage_running _ w Hrun).
    rewrite sendMessage_running by exact Hrun.
    simpl. rewrite !filter_app, !length_app. simpl.
    rewrite !Nat.add_0_r, !Nat.add_1_r. reflexivity. }
  destruct (getInitialTasks _) as [taskValues|e].
  - rewrite bootstraps_sendNewTasks. exact H2.
  - rewrite bootstraps_shutdown.
    unfold sendErrorMessage. rewrite bootstraps_sendMessage by reflexivity.
    exact H2.
Qed.

Lemma bootstraps_after_loop fuel w o :
  match loop fuel w with
  | Some (Returned w1) =>
      Some (Returned
              (if AgentMode_eqb (mode (this w1)) PAUSE_MODE && negb (isRunning (this w1))
               then handlePause (playbackControl (this w1)) w1
               else w1))
  | other => other
  end = Some o ->
  bootstraps (worldOf o) = bootstraps w.
Proof.
  destruct (loop fuel w) as [[w1|e w1]|] eqn:Hloop; intros H; try discriminate;
    injection H as <-; pose proof (bootstraps_loop _ _ _ Hloop) as Hb; simpl in *.
  - destruct (_ && _); [|exact Hb].
    rewrite bootstraps_handlePause. exact Hb.
  - exact Hb.
Qed.


(** ** The sink only grows *)

Lemma extends_refl w : extends w w.
Proof. exists []. symmetry. apply app_nil_r. Qed.

Lemma extends_trans w1 w2 w3 : extends w1 w2 -> extends w2 w3 -> extends w1 w3.
Proof.
  intros [m1 H1] [m2 H2]. exists (m1 ++ m2)%list.
  rewrite H2, H1. symmetry. apply app_assoc.
Qed.

Lemma extends_env w w' : messages (env w') = messages (env w) -> extends w w'.
Proof. intros H. exists []. rewrite H. symmetry. apply app_nil_r. Qed.

Lemma extends_sendMessage m w : extends w (sendMessage m w).
Proof.
  unfold sendMessage. destruct (isRunning (this w)); [|apply extends_refl].
  exists [m]. reflexivity.
Qed.

Lemma extends_sendNewTasks values : forall w, extends w (sendNewTasks values w).
Proof.
  induction values as [|v rest IH]; intros w; simpl; [apply extends_refl|].
  eapply extends_trans; [|apply IH].
  eapply extends_trans; [|apply extends_sendMessage].
  apply extends_env. reflexivity.
Qed.

Lemma extends_addNewTasks t r w : extends w (addNewTasks t r w).
Proof.
  unfold addNewTasks, sendThinkingMessage, sendErrorMessage.
  set (w1 := sendMessage MESSAGE_TYPE_THINKING w).
  assert (H1 : extends w w1) by apply extends_sendMessage.
  destruct (getAdditionalTasks _ _ _ _ _) as [newTasks|e].
  - assert (H2 : extends w (sendNewTasks newTasks (logRequest
        (ReqAdditionalTasks (value t) (map value (getRemainingTasks w1))
           (completedTasks (this w1)) r) w1))).
    { eapply extends_trans; [exact H1|].
      eapply extends_trans; [|apply extends_sendNewTasks].
      apply extends_env. reflexivity. }
    destruct (Nat.eqb _ _); [|exact H2].
    eapply extends_trans; [exact H2|apply extends_sendMessage].
  - eapply extends_trans; [|apply extends_sendMessage].
    eapply extends_trans; [|apply extends_sendMessage].
    eapply extends_trans; [exact H1|]. apply extends_env. reflexivity.
Qed.

Lemma extends_executeCurrent t a w : extends w (stepWorld (executeCurrent t a w)).
Proof.
  unfold executeCurrent.
  destruct (executeTask _ _ _) as [result|e]; simpl.
  - eapply extends_trans; [|apply extends_addNewTasks].
    eapply extends_trans; [|apply extends_env; reflexivity].
    eapply extends_trans; [|apply extends_sendMessage].
    apply extends_env. reflexivity.
  - apply extends_env. reflexivity.
Qed.


Lemma extends_runCurrent t w : extends w (stepWorld (runCurrent t w)).
Proof.
  unfold runCurrent, sendThinkingMessage.
  set (w1 := sendMessage MESSAGE_TYPE_THINKING _).
  assert (H1 : extends w w1).
  { eapply extends_trans; [|apply extends_sendMessage]. apply extends_sendMessage. }
  destruct (isWebSearchEnabled _).
  - destruct (analyzeTask _ _) as [analysis|e]; simpl.
    + eapply extends_trans; [exact H1|].
      eapply extends_trans; [|apply extends_executeCurrent].
      eapply extends_trans; [|apply extends_sendMessage].
      apply extends_env. reflexivity.
    + eapply extends_trans; [exact H1|]. apply extends_env. reflexivity.
  - eapply extends_trans; [exact H1|]. apply extends_executeCurrent.
Qed.

Lemma extends_loopBody w : extends w (stepWorld (loopBody w)).
Proof.
  assert (Hcp : extends w (conditionalPause w))
    by (apply extends_env; rewrite env_conditionalPause; reflexivity).
  unfold loopBody.
  destruct (isRunning (this (conditionalPause w))); simpl; [|exact Hcp].
  destruct (getRemainingTasks (conditionalPause w)) as [|t rest]; simpl.
  - eapply extends_trans; [exact Hcp|].
    eapply extends_trans; [apply extends_sendMessage|].
    apply extends_env. reflexivity.
  - match goal with |- context [if ?c then _ else _] => destruct c end; simpl.
    + eapply extends_trans; [exact Hcp|].
      eapply extends_trans; [|apply extends_env; reflexivity].
      eapply extends_trans; [|apply extends_sendMessage].
      apply extends_env. reflexivity.
    + eapply extends_trans; [exact Hcp|].
      eapply extends_trans; [|apply extends_runCurrent].
      apply extends_env. reflexivity.
Qed.

Lemma extends_loop fuel : forall w o, loop fuel w = Some o -> extends w (worldOf o).
Proof.
  induction fuel as [|fuel IH]; intros w o H; [discriminate|].
  simpl in H. pose proof (extends_loopBody w) as Hb.
  destruct (loopBody w) as [o'|w'].
  - injection H as <-. exact Hb.
  - eapply extends_trans; [exact Hb|]. apply IH. exact H.
Qed.

(** ** The task store *)

Lemma storeTask_mark (t : Task) (ts : list Task) :
  status t <> TASK_STATUS_STARTED ->
  storeTask t ts = map (fun t' => if Nat.eqb (taskId t') (taskId t) then t else t') ts.
Proof.
  intros H. unfold storeTask. destruct (status t); try reflexivity. congruence.
Qed.

Lemma storeTask_mark_again (t1 t2 : Task) (ts : list Task) :
  taskId t1 = taskId t2 ->
  status t1 <> TASK_STATUS_STARTED -> status t2 <> TASK_STATUS_STARTED ->
  storeTask t2 (storeTask t1 ts) = storeTask t2 ts.
Proof.
  intros Hid H1 H2. rewrite !storeTask_mark by assumption.
  rewrite map_map. apply map_ext. intros t'.
  destruct (Nat.eqb (taskId t') (taskId t1)) eqn:E1.
  - rewrite Hid, Nat.eqb_refl. rewrite Hid in E1. rewrite E1. reflexivity.
  - reflexivity.
Qed.

Lemma pending_after_mark (t : Task) (ts : list Task) :
  status t <> TASK_STATUS_STARTED ->
  filter (fun t' => TaskStatus_eqb (status t') TASK_STATUS_STARTED) (storeTask t ts) =
  filter (fun t' => negb (Nat.eqb (taskId t') (taskId t)))
    (filter (fun t' => TaskStatus_eqb (status t') TASK_STATUS_STARTED) ts).
Proof.
  intros H. rewrite storeTask_mark by exact H.
  induction ts as [|t' ts IH]; simpl; [reflexivity|].
  destruct (Nat.eqb (taskId t') (taskId t)) eqn:Eid.
  - assert (Hs : TaskStatus_eqb (status t) TASK_STATUS_STARTED = false)
      by (destruct (status t); try reflexivity; congruence).
    rewrite Hs.
    destruct (TaskStatus_eqb (status t') TASK_STATUS_STARTED); simpl;
      rewrite ?Eid; simpl; exact IH.
  - destruct (TaskStatus_eqb (status t') TASK_STATUS_STARTED); simpl;
      rewrite ?Eid; simpl; rewrite IH; reflexivity.
Qed.


(** ** Follow-up generation *)

(** The request [addNewTasks] makes, as the backend sees it. *)
Lemma requests_sendNewTasks values : forall w,
  requests (env (sendNewTasks values w)) = requests (env w).
Proof.
  induction values as [|v rest IH]; intros w; simpl; [reflexivity|].
  rewrite IH. unfold sendMessage. destruct (isRunning _); reflexivity.
Qed.

Lemma requests_sendMessage m w : requests (env (sendMessage m w)) = requests (env w).
Proof. unfold sendMessage. destruct (isRunning _); reflexivity. Qed.

Lemma requests_addNewTasks t r w :
  isRunning (this w) = true ->
  requests (env (addNewTasks t r w)) =
  (requests (env w) ++
     [ReqAdditionalTasks (value t) (map value (getRemainingTasks w))
        (completedTasks (this w)) r])%list.
Proof.
  intros Hrun. unfold addNewTasks, sendThinkingMessage, sendErrorMessage.
  rewrite (sendMessage_running _ _ Hrun).
  destruct (getAdditionalTasks _ _ _ _ _) as [newTasks|e].
  - destruct (Nat.eqb _ _);
      rewrite ?requests_sendMessage, requests_sendNewTasks; reflexivity.
  - rewrite !requests_sendMessage. reflexivity.
Qed.





(** ** The goal bootstrap, seen from the sink *)

Lemma startGoal_messages w :
  isRunning (this w) = true ->
  exists more,
    messages (env (startGoal w)) =
    (messages (env w) ++
       MESSAGE_TYPE_GOAL (goal (this w)) :: MESSAGE_TYPE_THINKING :: more)%list.
Proof.
  intros Hrun. unfold startGoal.
  set (w2 := sendThinkingMessage (sendGoalMessage w)).
  assert (H2 : messages (env w2) =
               (messages (env w) ++
                  [MESSAGE_TYPE_GOAL (goal (this w)); MESSAGE_TYPE_THINKING])%list).
  { unfold w2, sendThinkingMessage, sendGoalMessage.
    rewrite (sendMessage_running _ w Hrun).
    rewrite sendMessage_running by exact Hrun.
    simpl. rewrite <- app_assoc. reflexivity. }
  assert (Hext : forall w3, extends w2 w3 ->
            exists more, messages (env w3) =
              (messages (env w) ++
                 MESSAGE_TYPE_GOAL (goal (this w)) :: MESSAGE_TYPE_THINKING :: more)%list).
  { intros w3 [more H3]. exists more. rewrite H3, H2, <- app_assoc. reflexivity. }
  apply Hext.
  destruct (getInitialTasks _) as [taskValues|e].
  - eapply extends_trans; [|apply extends_sendNewTasks]. apply extends_env. reflexivity.
  - eapply extends_trans; [|apply extends_env; reflexivity].
    eapply extends_trans; [|apply extends_sendMessage].
    apply extends_env. reflexivity.
Qed.

Lemma extends_after_loop fuel w o :
  match loop fuel w with
  | Some (Returned w1) =>
      Some (Returned
              (if AgentMode_eqb (mode (this w1)) PAUSE_MODE && negb (isRunning (this w1))
               then handlePause (playbackControl (this w1)) w1
               else w1))
  | other => other
  end = Some o ->
  extends w (worldOf o).
Proof.
  destruct (loop fuel w) as [[w1|e w1]|] eqn:Hloop; intros H; try discriminate;
    injection H as <-; pose proof (extends_loop _ _ _ Hloop) as Hb; simpl in *.
  - destruct (_ && _); [|exact Hb].
    eapply extends_trans; [exact Hb|]. apply extends_env. reflexivity.
  - exact Hb.
Qed.

(** C9, amended.  What guards the goal bootstrap is the running flag, not
    a record of a first call: a [run] entered with the flag false sends
    the goal message and the thinking placeholder before anything else,
    sends the goal message exactly once and asks for the initial
    decomposition exactly once; a [run] entered with the flag true (a
    resume made after [updateIsRunning(true)]) sends no goal message and
    makes no such request. *)
Theorem bootstrap_guard (fuel : nat) (w : World) (o : Outcome) :
  run fuel w = Some o ->
  (isRunning (this w) = true ->
   goalMessages (worldOf o) = goalMessages w /\
   initialRequests (worldOf o) = initialRequests w) /\
  (isRunning (this w) = false ->
   goalMessages (worldOf o) = S (goalMessages w) /\
   initialRequests (worldOf o) = S (initialRequests w) /\
   exists more,
     messages (env (worldOf o)) =
     (messages (env w) ++
        MESSAGE_TYPE_GOAL (goal (this w)) :: MESSAGE_TYPE_THINKING :: more)%list).
Proof.
  unfold run. intros H. split; intros Hflag; rewrite Hflag in H; simpl negb in H;
    cbv iota in H; pose proof (bootstraps_after_loop _ _ _ H) as Hb.
  - unfold bootstraps in Hb. injection Hb as Hg Hi. split; assumption.
  - rewrite bootstraps_startGoal in Hb by reflexivity.
    unfold bootstraps in Hb. injection Hb as Hg Hi.
    split; [exact Hg|]. split; [exact Hi|].
    destruct (extends_after_loop _ _ _ H) as [more2 Hm2].
    destruct (startGoal_messages (set_isRunning true w) eq_refl) as [more1 Hm1].
    exists (more1 ++ more2)%list. rewrite Hm2, Hm1. simpl.
    rewrite <- app_assoc. reflexivity.
Qed.

End Properties.

(** * The code on concrete inputs *)

Section Examples.

(** C5.  The constructor does not keep an explicit initial playback
    control: in Stepwise mode the control is Pause whatever was given,
    Play included; in Automatic mode it is Play when none is given, and
    Pause when one is given. *)
Theorem constructor_drops_initial_control
    (g : string) (m : option Z) (c : AgentPlaybackControl) :
  playbackControl (constructor g m (Some PAUSE_MODE) (Some AGENT_PLAY)) = AGENT_PAUSE /\
  playbackControl (constructor g m (Some PAUSE_MODE) (Some AGENT_PAUSE)) = AGENT_PAUSE /\
  playbackControl (constructor g m (Some PAUSE_MODE) None) = AGENT_PAUSE /\
  playbackControl (constructor g m (Some AUTOMATIC_MODE) None) = AGENT_PLAY /\
  playbackControl (constructor g m None None) = AGENT_PLAY /\
  playbackControl (constructor g m (Some AUTOMATIC_MODE) (Some c)) = AGENT_PAUSE.
Proof. repeat split. Qed.

(** C6.  An axios error with status 429 gets the key of the generic
    access error, the quota key being overwritten; and a [run] whose
    initial decomposition fails that way sends this error, calls
    [shutdown], and then enters [loop], which finds no pending task and
    sends the completion notice. *)
Theorem quota_error_reported_as_access_error :
  messageKeyFromError (AxiosError (Some 429)) = "ERROR_ACCESSING_OPENAI_API_KEY" /\
  messageKeyFromError (AxiosError (Some 429)) <> "ERROR_API_KEY_QUOTA" /\
  exists w',
    @run keyTables quotaApi 1 (newWorld None None None) = Some (Returned w') /\
    messages (env w') =
      [MESSAGE_TYPE_GOAL "Plan a trip"; MESSAGE_TYPE_THINKING;
       MESSAGE_TYPE_SYSTEM "ERROR_ACCESSING_OPENAI_API_KEY";
       MESSAGE_TYPE_SYSTEM "ALL_TASKS_COMPLETETD"] /\
    requests (env w') = [ReqInitialTasks].
Proof.
  split; [reflexivity|]. split; [discriminate|].
  eexists. split; [vm_compute; reflexivity|]. split; reflexivity.
Qed.

(** C8.  A [run] whose initial decomposition fails calls [shutdown]
    twice: once in the [catch] of [startGoal], once more at the
    completion check of the [loop] that [run] enters all the same.  The
    error handler [onApiError], when the backend client calls it, adds a
    call of its own before it rethrows. *)
Theorem shutdown_called_twice_after_failed_bootstrap :
  shutdownCalls
    (env (@startGoal keyTables quotaApi (set_isRunning true (newWorld None None None))))
  = 1%nat /\
  (exists w',
     @run keyTables quotaApi 1 (newWorld None None None) = Some (Returned w') /\
     shutdownCalls (env w') = 2%nat) /\
  (exists w',
     @onApiError keyTables (AxiosError (Some 429)) (newWorld None None None)
     = Threw (AxiosError (Some 429)) w' /\
     shutdownCalls (env w') = 1%nat).
Proof.
  split; [reflexivity|]. split.
  - eexists. split; [vm_compute; reflexivity|]. reflexivity.
  - eexists. split; reflexivity.
Qed.

(** Counterexample to C2 as stated.  A pass entered with the running flag
    true, in Stepwise mode with the control at Pause and no pending task,
    sends nothing and does not call [shutdown]; and a first [run] in
    Stepwise mode with an empty initial decomposition ends paused, with
    the goal and the thinking placeholder as the only messages, without
    completion notice or [shutdown]. *)
Lemma completion_check_counterexample :
  isRunning (this (idleWorld PAUSE_MODE AGENT_PAUSE)) = true /\
  getRemainingTasks (idleWorld PAUSE_MODE AGENT_PAUSE) = [] /\
  (exists w',
     @loop keyTables idleApi 1 (idleWorld PAUSE_MODE AGENT_PAUSE) = Some (Returned w') /\
     messages (env w') = [] /\ shutdownCalls (env w') = 0%nat) /\
  (exists w',
     @run keyTables idleApi 1 (newWorld None (Some PAUSE_MODE) None) = Some (Returned w') /\
     messages (env w') = [MESSAGE_TYPE_GOAL "Plan a trip"; MESSAGE_TYPE_THINKING] /\
     shutdownCalls (env w') = 0%nat /\
     isRunning (this w') = false).
Proof.
  split; [reflexivity|]. split; [reflexivity|]. split.
  - eexists. split; [vm_compute; reflexivity|]. split; reflexivity.
  - eexists. split; [vm_compute; reflexivity|]. repeat split.
Qed.


(** Counterexample to C9 as stated.  In Stepwise mode the first [run]
    ends paused, with the running flag false; a second [run] on that
    world, made without [updateIsRunning(true)], does the bootstrap all
    over: two goal messages, two requests for the initial tasks, and the
    two tasks of the trip created twice. *)
Lemma bootstrap_counterexample :
  exists o,
    @runTwice keyTables tripApi 2 (newWorld None (Some PAUSE_MODE) None) = Some o /\
    goalMessages (worldOf o) = 2%nat /\
    initialRequests (worldOf o) = 2%nat /\
    map value (tasks (env (worldOf o))) =
      ["Book flight"; "Book hotel"; "Book flight"; "Book hotel"].
Proof.
  eexists. split; [vm_compute; reflexivity|]. repeat split.
Qed.

(** ** The theorems at work *)

(** C1 on the trip with a budget of one loop, the loop spent: the pass
    counts a second loop and stops on the budget. *)
Lemma loop_counter_and_budget_witness :
  isRunning (this (conditionalPause spentWorld)) = true /\
  getRemainingTasks spentWorld <> [] /\
  numLoops (this spentWorld) + 1 > @maxLoops keyTables spentWorld /\
  numLoops (this (stepWorld (@loopBody keyTables tripApi spentWorld))) = 2 /\
  exists w',
    @loopBody keyTables tripApi spentWorld = Done (Returned w') /\
    tasks (env w') = tasks (env spentWorld).
Proof.
  assert (H1 : isRunning (this (conditionalPause spentWorld)) = true) by reflexivity.
  assert (H2 : getRemainingTasks spentWorld <> []) by discriminate.
  assert (H3 : numLoops (this spentWorld) + 1 > @maxLoops keyTables spentWorld)
    by reflexivity.
  destruct (@loop_counter_and_budget keyTables tripApi spentWorld H1 H2)
    as (Hone & _ & Hover & _).
  destruct (Hover H3) as (w' & Hbody & _ & _ & Htasks & _).
  repeat split; try assumption.
  exists w'. split; assumption.
Defined.

(** C2 (amended) on an idle agent in Automatic mode. *)
Lemma completion_check_witness :
  isRunning (this (conditionalPause (idleWorld AUTOMATIC_MODE AGENT_PLAY))) = true /\
  getRemainingTasks (idleWorld AUTOMATIC_MODE AGENT_PLAY) = [] /\
  isRunning (this (newWorld None None None)) = false /\
  @getInitialTasks idleApi (List.length (requests (env (newWorld None None None)))) = Ok [] /\
  getRemainingTasks (newWorld None None None) = [] /\
  isRunning (this (conditionalPause (set_isRunning true (newWorld None None None)))) = true /\
  (exists w',
     @loop keyTables idleApi 1 (idleWorld AUTOMATIC_MODE AGENT_PLAY) = Some (Returned w') /\
     shutdownCalls (env w') = 1%nat) /\
  (exists w',
     @run keyTables idleApi 1 (newWorld None None None) = Some (Returned w') /\
     shutdownCalls (env w') = 1%nat).
Proof.
  destruct (@completion_check keyTables idleApi 0
              (idleWorld AUTOMATIC_MODE AGENT_PLAY) (newWorld None None None))
    as [HA HB].
  destruct (HA eq_refl eq_refl) as (w1 & Hloop & _ & Hsd1 & _).
  destruct (HB eq_refl eq_refl eq_refl eq_refl) as (w2 & Hrun & _ & Hsd2 & _).
  repeat split; try reflexivity.
  - exists w1. split; assumption.
  - exists w2. split; assumption.
Defined.

(** C3 on the trip in Stepwise mode, no step authorized. *)
Lemma loop_pauses_without_effect_witness :
  mode (this (tripWorld None PAUSE_MODE AGENT_PAUSE)) = PAUSE_MODE /\
  playbackControl (this (tripWorld None PAUSE_MODE AGENT_PAUSE)) = AGENT_PAUSE /\
  exists w',
    @loop keyTables tripApi 1 (tripWorld None PAUSE_MODE AGENT_PAUSE) = Some (Returned w') /\
    isRunning (this w') = false /\
    env w' = tripEnv.
Proof.
  destruct (@loop_pauses_without_effect keyTables tripApi 0
              (tripWorld None PAUSE_MODE AGENT_PAUSE) eq_refl eq_refl)
    as (w' & Hloop & Hflag & _ & _ & _ & _ & Henv & _).
  repeat split. exists w'. repeat split; assumption.
Defined.

(** C4 on the trip in Stepwise mode, one step authorized. *)
Lemma step_authorization_witness :
  mode (this (tripWorld None PAUSE_MODE AGENT_PLAY)) = PAUSE_MODE /\
  playbackControl (this (tripWorld None PAUSE_MODE AGENT_PLAY)) = AGENT_PLAY /\
  exists o,
    @loop keyTables tripApi 2 (tripWorld None PAUSE_MODE AGENT_PLAY) = Some o /\
    playbackControl (this (worldOf o)) = AGENT_PAUSE /\
    numLoops (this (worldOf o)) <= 1.
Proof.
  destruct (@step_authorization keyTables tripApi 0 AGENT_PLAY
              (tripWorld None PAUSE_MODE AGENT_PLAY))
    as [_ Hstep].
  destruct (Hstep eq_refl eq_refl) as (_ & _ & _ & o & Hloop & Hc & _ & Hn).
  repeat split. exists o. repeat split; assumption.
Defined.


(** C9 (amended) on a resume made after [updateIsRunning(true)], and on a
    first [run]. *)
Lemma bootstrap_guard_witness :
  let w := tripWorld None PAUSE_MODE AGENT_PLAY in
  let w0 := newWorld None None None in
  (exists o,
     @run keyTables tripApi 2 w = Some o /\
     isRunning (this w) = true /\
     goalMessages (worldOf o) = goalMessages w /\
     initialRequests (worldOf o) = initialRequests w) /\
  (exists o,
     @run keyTables tripApi 3 w0 = Some o /\
     isRunning (this w0) = false /\
     goalMessages (worldOf o) = S (goalMessages w0) /\
     initialRequests (worldOf o) = S (initialRequests w0)).
Proof.
  intros w w0. split.
  - destruct (@run keyTables tripApi 2 w) as [o|] eqn:Hrun; [|vm_compute in Hrun; discriminate].
    exists o. split; [reflexivity|]. split; [reflexivity|].
    exact (proj1 (@bootstrap_guard keyTables tripApi 2 w o Hrun) eq_refl).
  - destruct (@run keyTables tripApi 3 w0) as [o|] eqn:Hrun; [|vm_compute in Hrun; discriminate].
    exists o. split; [reflexivity|]. split; [reflexivity|].
    destruct (proj2 (@bootstrap_guard keyTables tripApi 3 w0 o Hrun) eq_refl)
      as (Hg & Hi & _).
    split; assumption.
Defined.

(** C10 on an agent that is stopped a second time. *)
Lemma messages_only_while_running_witness :
  let w := @stopAgent keyTables (tripWorld None AUTOMATIC_MODE AGENT_PLAY) in
  isRunning (this w) = false /\
  messages (env w) = [MESSAGE_TYPE_SYSTEM "AGENT_MANUALLY_SHUT_DOWN"] /\
  messages (env (@stopAgent keyTables w)) = messages (env w) /\
  shutdownCalls (env (@stopAgent keyTables w)) = S (shutdownCalls (env w)).
Proof.
  intros w.
  destruct (@messages_only_while_running keyTables tripApi 0 MESSAGE_TYPE_THINKING
              EmptyString defaultAnalysis [] w)
    as (_ & _ & Hstopped & _).
  destruct (Hstopped eq_refl) as (_ & _ & _ & _ & _ & _ & _ & _ & _ & _ & _ & Hm & Hs).
  repeat split; assumption.
Defined.

End Examples.

(** * Further properties of the code *)

Section Further.
Context {imports : Imports} {api : AgentApi}.

(** ** The four ways through the body of [loop] *)

Lemma loopBody_cases (w : World) :
  let cp := conditionalPause w in
  let w1 := set_numLoops (numLoops (this cp) + 1) cp in
  (isRunning (this cp) = false /\ loopBody w = Done (Returned cp)) \/
  (isRunning (this cp) = true /\ getRemainingTasks w = [] /\
   loopBody w = Done (Returned (shutdown (sendCompletedMessage cp)))) \/
  (exists t rest,
     isRunning (this cp) = true /\ getRemainingTasks w = t :: rest /\
     numLoops (this w) + 1 > maxLoops w /\
     loopBody w = Done (Returned (shutdown (sendLoopMessage w1)))) \/
  (exists t rest,
     isRunning (this cp) = true /\ getRemainingTasks w = t :: rest /\
     numLoops (this w) + 1 <= maxLoops w /\
     loopBody w = runCurrent t w1).
Proof.
  intros cp w1. subst w1 cp. unfold loopBody.
  rewrite getRemainingTasks_conditionalPause.
  set (cp := conditionalPause w).
  set (w1 := set_numLoops (numLoops (this cp) + 1) cp).
  destruct (isRunning (this cp)) eqn:Hrun; simpl negb; cbv iota; [|left; auto].
  right.
  destruct (getRemainingTasks w) as [|t rest] eqn:Hrem; [left; auto|].
  right.
  assert (Hm : maxLoops w1 = maxLoops w).
  { unfold w1. change (maxLoops (set_numLoops (numLoops (this cp) + 1) cp))
      with (maxLoops cp). apply maxLoops_conditionalPause. }
  assert (Hn : numLoops (this w1) = numLoops (this w) + 1).
  { unfold w1. simpl. unfold cp. rewrite numLoops_conditionalPause. reflexivity. }
  rewrite Hm, Hn.
  destruct (Z.gtb (numLoops (this w) + 1) (maxLoops w)) eqn:Hgt.
  - left. exists t, rest.
    split; [reflexivity|]. split; [reflexivity|]. split; [|reflexivity].
    rewrite Z.gtb_ltb in Hgt. apply Z.ltb_lt in Hgt. lia.
  - right. exists t, rest.
    split; [reflexivity|]. split; [reflexivity|]. split; [|reflexivity].
    rewrite Z.gtb_ltb in Hgt. apply Z.ltb_ge in Hgt. exact Hgt.
Qed.

(** ** Hooks and toggle *)

Lemma hooks_env w w' : env w' = env w -> hooks w' = hooks w.
Proof. unfold hooks. intros ->. reflexivity. Qed.

Lemma hooks_sendMessage m w : hooks (sendMessage m w) = hooks w.
Proof. unfold sendMessage. destruct (isRunning _); reflexivity. Qed.

Lemma hooks_logRequest r w : hooks (logRequest r w) = hooks w.
Proof. reflexivity. Qed.

Lemma hooks_push v w : hooks (push_completedTasks v w) = hooks w.
Proof. reflexivity. Qed.

Lemma hooks_sendNewTasks values : forall w, hooks (sendNewTasks values w) = hooks w.
Proof.
  induction values as [|v rest IH]; intros w; simpl; [reflexivity|].
  rewrite IH, hooks_sendMessage. reflexivity.
Qed.

Lemma hooks_addNewTasks t r w : hooks (addNewTasks t r w) = hooks w.
Proof.
  unfold addNewTasks, sendThinkingMessage, sendErrorMessage.
  destruct (getAdditionalTasks _ _ _ _ _) as [newTasks|e].
  - destruct (Nat.eqb _ _); [rewrite hooks_sendMessage|];
      rewrite hooks_sendNewTasks, hooks_logRequest; apply hooks_sendMessage.
  - rewrite !hooks_sendMessage, hooks_logRequest. apply hooks_sendMessage.
Qed.

Lemma hooks_executeCurrent t a w : hooks (stepWorld (executeCurrent t a w)) = hooks w.
Proof.
  unfold executeCurrent. destruct (executeTask _ _ _) as [result|e]; simpl.
  - rewrite hooks_addNewTasks, hooks_push, hooks_sendMessage. reflexivity.
  - reflexivity.
Qed.

Lemma hooks_runCurrent t w : hooks (stepWorld (runCurrent t w)) = hooks w.
Proof.
  unfold runCurrent, sendThinkingMessage, sendAnalysisMessage.
  set (w1 := sendMessage MESSAGE_TYPE_THINKING _).
  assert (H1 : hooks w1 = hooks w) by (unfold w1; rewrite !hooks_sendMessage; reflexivity).
  destruct (isWebSearchEnabled (env w1)).
  - destruct (analyzeTask _ _) as [analysis|e]; simpl.
    + rewrite hooks_executeCurrent, hooks_sendMessage, hooks_logRequest. exact H1.
    + rewrite hooks_logRequest. exact H1.
  - rewrite hooks_executeCurrent. exact H1.
Qed.

Lemma hooks_conditionalPause w : hooks (conditionalPause w) = hooks w.
Proof. apply hooks_env, env_conditionalPause. Qed.

Lemma isRunning_runCurrent t w :
  isRunning (this (stepWorld (runCurrent t w))) = isRunning (this w).
Proof.
  pose proof (controls_runCurrent t w) as H. unfold controls in H.
  injection H as _ _ H _ _ _. exact H.
Qed.

(** [runCurrent] throws or reaches the recursive call; it never returns. *)
Lemma runCurrent_never_returns t w w' : runCurrent t w <> Done (Returned w').
Proof.
  unfold runCurrent, executeCurrent.
  destruct (isWebSearchEnabled _).
  - destruct (analyzeTask _ _) as [analysis|e]; [|discriminate].
    destruct (executeTask _ _ _); discriminate.
  - destruct (executeTask _ _ _); discriminate.
Qed.

(** A pass of the loop calls [shutdown] at most once, and then it ends the
    call with the running flag true; a pass that ends the call with the
    flag false, that throws or that recurses calls no hook. *)
Lemma loopBody_hooks (w : World) :
  match loopBody w with
  | Again w' => hooks w' = hooks w
  | Done (Threw _ w') => hooks w' = hooks w
  | Done (Returned w') =>
      (isRunning (this w') = false /\ hooks w' = hooks w) \/
      (isRunning (this w') = true /\
       hooks w' = (S (shutdownCalls (env w)), handlePauseCalls (env w),
                   isWebSearchEnabled (env w)))
  end.
Proof.
  pose proof (hooks_conditionalPause w) as Hcp.
  assert (Hsd : forall m x,
            hooks x = hooks w ->
            hooks (shutdown (sendMessage m x)) =
            (S (shutdownCalls (env w)), handlePauseCalls (env w),
             isWebSearchEnabled (env w))).
  { intros m x Hx. pose proof (hooks_sendMessage m x) as Hs. rewrite Hx in Hs.
    unfold hooks in *. simpl. injection Hs as -> -> ->. reflexivity. }
  destruct (loopBody_cases w) as [(Hrun & Hb)|[(Hrun & _ & Hb)|
    [(t & rest & Hrun & _ & _ & Hb)|(t & rest & Hrun & _ & _ & Hb)]]]; rewrite Hb.
  - left. split; assumption.
  - right. split.
    + rewrite this_shutdown. unfold sendCompletedMessage. rewrite this_sendMessage.
      exact Hrun.
    + apply Hsd. exact Hcp.
  - right. split.
    + rewrite this_shutdown. unfold sendLoopMessage. rewrite this_sendMessage.
      exact Hrun.
    + apply Hsd. exact Hcp.
  - pose proof (hooks_runCurrent t
      (set_numLoops (numLoops (this (conditionalPause w)) + 1) (conditionalPause w))) as Hr.
    change (hooks (set_numLoops (numLoops (this (conditionalPause w)) + 1)
                     (conditionalPause w)))
      with (hooks (conditionalPause w)) in Hr.
    rewrite Hcp in Hr.
    destruct (runCurrent t _) as [[w'|e w']|w'] eqn:Hrc; simpl in Hr.
    + exfalso. exact (runCurrent_never_returns _ _ _ Hrc).
    + exact Hr.
    + exact Hr.
Qed.

Lemma loop_hooks fuel : forall w o,
  loop fuel w = Some o ->
  handlePauseCalls (env (worldOf o)) = handlePauseCalls (env w) /\
  isWebSearchEnabled (env (worldOf o)) = isWebSearchEnabled (env w) /\
  match o with
  | Threw _ w' => shutdownCalls (env w') = shutdownCalls (env w)
  | Returned w' =>
      shutdownCalls (env w') =
      if isRunning (this w') then S (shutdownCalls (env w)) else shutdownCalls (env w)
  end.
Proof.
  induction fuel as [|fuel IH]; intros w o H; [discriminate|].
  simpl in H. pose proof (loopBody_hooks w) as Hh.
  destruct (loopBody w) as [o'|w'].
  - injection H as <-. destruct o' as [w'|e w'].
    + destruct Hh as [(Hrun & Hh)|(Hrun & Hh)]; rewrite Hrun;
        unfold hooks in Hh; injection Hh as H1 H2 H3; simpl; auto.
    + unfold hooks in Hh. injection Hh as H1 H2 H3. simpl. auto.
  - specialize (IH _ _ H). unfold hooks in Hh. injection Hh as H1 H2 H3.
    rewrite H1, H2, H3 in IH. exact IH.
Qed.


(** ** [startGoal] and [run] *)

Lemma this_startGoal w : this (startGoal w) = this w.
Proof.
  unfold startGoal, sendGoalMessage, sendThinkingMessage, sendErrorMessage.
  destruct (getInitialTasks _) as [values|e].
  - rewrite this_sendNewTasks, this_logRequest, !this_sendMessage. reflexivity.
  - rewrite this_shutdown, this_sendMessage, this_logRequest, !this_sendMessage.
    reflexivity.
Qed.

Lemma requests_startGoal w :
  requests (env (startGoal w)) = (requests (env w) ++ [ReqInitialTasks])%list.
Proof.
  unfold startGoal, sendGoalMessage, sendThinkingMessage, sendErrorMessage.
  destruct (getInitialTasks _) as [values|e].
  - rewrite requests_sendNewTasks. simpl. rewrite !requests_sendMessage. reflexivity.
  - simpl. rewrite requests_sendMessage. simpl. rewrite !requests_sendMessage.
    reflexivity.
Qed.

Lemma handlePauseCalls_startGoal w :
  handlePauseCalls (env (startGoal w)) = handlePauseCalls (env w).
Proof.
  assert (Hh : forall x y, hooks x = hooks y ->
                           handlePauseCalls (env x) = handlePauseCalls (env y)).
  { intros x y H. unfold hooks in H. injection H as _ H _. exact H. }
  unfold startGoal, sendGoalMessage, sendThinkingMessage, sendErrorMessage.
  destruct (getInitialTasks _) as [values|e].
  - apply Hh. rewrite hooks_sendNewTasks, hooks_logRequest, !hooks_sendMessage.
    reflexivity.
  - simpl. apply Hh. rewrite hooks_sendMessage, hooks_logRequest, !hooks_sendMessage.
    reflexivity.
Qed.

Lemma budgetLeft_this w w' : this w' = this w -> budgetLeft w' = budgetLeft w.
Proof. unfold budgetLeft, maxLoops. intros ->. reflexivity. Qed.

(** X7.  [run] returns: the recursion of [loop] stops after at most
    [maxLoops + 1 - numLoops] passes beyond the first, whatever the
    backend answers. *)
Theorem run_returns (fuel : nat) (w : World) :
  (budgetLeft w < fuel)%nat -> exists o, run fuel w = Some o.
Proof.
  intros Hfuel. unfold run.
  set (w0 := if negb (isRunning (this w)) then startGoal (set_isRunning true w) else w).
  assert (Hb : budgetLeft w0 = budgetLeft w).
  { unfold w0. destruct (negb _); [|reflexivity].
    rewrite (budgetLeft_this _ _ (this_startGoal _)). reflexivity. }
  destruct (loop_returns fuel w0) as [o Ho]; [rewrite Hb; exact Hfuel|].
  rewrite Ho. destruct o; eauto.
Qed.

(** The mode never changes, and in Stepwise mode every pass leaves the
    playback control at Pause. *)
Lemma loopBody_mode_control (w : World) :
  mode (this (stepWorld (loopBody w))) = mode (this w) /\
  (mode (this w) = PAUSE_MODE ->
   playbackControl (this (stepWorld (loopBody w))) = AGENT_PAUSE).
Proof.
  assert (Hcp : mode (this (conditionalPause w)) = mode (this w) /\
                (mode (this w) = PAUSE_MODE ->
                 playbackControl (this (conditionalPause w)) = AGENT_PAUSE)).
  { destruct w as [[g ct cm r n md pc] e]. destruct md, pc; simpl; split;
      try reflexivity; intros; try reflexivity; discriminate. }
  destruct (loopBody_cases w) as [(_ & Hb)|[(_ & _ & Hb)|
    [(t & rest & _ & _ & _ & Hb)|(t & rest & _ & _ & _ & Hb)]]]; rewrite Hb.
  - exact Hcp.
  - simpl. unfold sendCompletedMessage. rewrite this_sendMessage. exact Hcp.
  - simpl. unfold sendLoopMessage. rewrite this_sendMessage. exact Hcp.
  - pose proof (controls_runCurrent t
      (set_numLoops (numLoops (this (conditionalPause w)) + 1) (conditionalPause w))) as Hc.
    unfold controls in Hc. simpl in Hc. injection Hc as _ _ _ _ Hm Hp.
    rewrite Hm, Hp. exact Hcp.
Qed.

Lemma loop_mode_control fuel : forall w o,
  loop fuel w = Some o ->
  mode (this (worldOf o)) = mode (this w) /\
  (mode (this w) = PAUSE_MODE -> playbackControl (this (worldOf o)) = AGENT_PAUSE).
Proof.
  induction fuel as [|fuel IH]; intros w o H; [discriminate|].
  simpl in H. pose proof (loopBody_mode_control w) as [Hm Hp].
  destruct (loopBody w) as [o'|w'].
  - injection H as <-. split; assumption.
  - destruct (IH _ _ H) as [Hm' Hp']. simpl in Hm, Hp. split; [congruence|].
    intros Hmode. apply Hp'. congruence.
Qed.

(** X8.  [run] calls [handlePause] at most once, after [loop] has
    returned: exactly when the agent is in Stepwise mode and ends with the
    running flag false, and then always with the control Pause.  In
    Automatic mode, and when an exception leaves [run], the hook is not
    called. *)
Theorem run_pause_notification (fuel : nat) (w : World) (o : Outcome) :
  run fuel w = Some o ->
  match o with
  | Threw _ w' => handlePauseCalls (env w') = handlePauseCalls (env w)
  | Returned w' =>
      handlePauseCalls (env w') =
      (handlePauseCalls (env w) ++
         if AgentMode_eqb (mode (this w)) PAUSE_MODE && negb (isRunning (this w'))
         then [AGENT_PAUSE] else [])%list
  end.
Proof.
  unfold run.
  set (w0 := if negb (isRunning (this w)) then startGoal (set_isRunning true w) else w).
  assert (Hp0 : handlePauseCalls (env w0) = handlePauseCalls (env w)).
  { unfold w0. destruct (negb _); [|reflexivity].
    rewrite handlePauseCalls_startGoal. reflexivity. }
  assert (Hm0 : mode (this w0) = mode (this w)).
  { unfold w0. destruct (negb _); [|reflexivity]. rewrite this_startGoal. reflexivity. }
  destruct (loop fuel w0) as [[w1|e w1]|] eqn:Hloop; intros H; try discriminate;
    injection H as <-;
    destruct (loop_hooks _ _ _ Hloop) as (Hh & _);
    destruct (loop_mode_control _ _ _ Hloop) as [Hm Hc]; cbn [worldOf] in Hh, Hm, Hc.
  - rewrite Hm0 in Hm, Hc. rewrite Hm.
    destruct (mode (this w)) eqn:Hmode; cbn [AgentMode_eqb andb].
    + rewrite app_nil_r. congruence.
    + destruct (isRunning (this w1)) eqn:Hflag; cbn [negb].
      * rewrite Hflag. cbn [negb]. rewrite app_nil_r. congruence.
      * rewrite (Hc eq_refl). simpl. rewrite Hflag. simpl.
        rewrite Hh, Hp0. reflexivity.
  - congruence.
Qed.

(** X9.  Whatever initial playback control the constructor is given, the
    first [run] of an agent built in Stepwise mode does the bootstrap and
    then pauses at once: it returns with the running flag false, the
    counter at zero and an empty history, the only request made being the
    one for the initial tasks, and calls [handlePause] once with Pause. *)
Theorem stepwise_first_run_pauses
    (fuel : nat) (g : string) (m : option Z) (c : option AgentPlaybackControl)
    (e0 : Env) :
  exists w',
    run (S fuel) (mkWorld (constructor g m (Some PAUSE_MODE) c) e0) = Some (Returned w') /\
    isRunning (this w') = false /\
    numLoops (this w') = 0 /\
    completedTasks (this w') = [] /\
    requests (env w') = (requests e0 ++ [ReqInitialTasks])%list /\
    handlePauseCalls (env w') = (handlePauseCalls e0 ++ [AGENT_PAUSE])%list.
Proof.
  set (w := mkWorld (constructor g m (Some PAUSE_MODE) c) e0).
  assert (Hctl : playbackControl (this w) = AGENT_PAUSE)
    by (unfold w; destruct c; reflexivity).
  set (w0 := startGoal (set_isRunning true w)).
  assert (Hthis : this w0 = this (set_isRunning true w)) by apply this_startGoal.
  assert (Hm0 : mode (this w0) = PAUSE_MODE) by (rewrite Hthis; reflexivity).
  assert (Hc0 : playbackControl (this w0) = AGENT_PAUSE) by (rewrite Hthis; exact Hctl).
  assert (Hbody : loopBody w0 = Done (Returned (set_isRunning false w0)))
    by (apply loopBody_paused; assumption).
  exists (handlePause AGENT_PAUSE (set_isRunning false w0)).
  split.
  - unfold run. change (isRunning (this w)) with false. simpl negb. cbv iota.
    fold w0. simpl loop. rewrite Hbody.
    cbn [set_isRunning this mode playbackControl isRunning].
    rewrite Hm0, Hc0. reflexivity.
  - cbn [handlePause set_isRunning this env isRunning numLoops completedTasks
           requests handlePauseCalls].
    rewrite Hthis. unfold w0. rewrite requests_startGoal, handlePauseCalls_startGoal.
    repeat split.
Qed.

(** ** New tasks *)

Lemma value_newTasksFrom values : forall id, map value (newTasksFrom id values) = values.
Proof.
  induction values as [|v rest IH]; intros id; simpl; [reflexivity|].
  rewrite IH. reflexivity.
Qed.

Lemma pending_newTasksFrom values : forall id,
  filter (fun t => TaskStatus_eqb (status t) TASK_STATUS_STARTED) (newTasksFrom id values)
  = newTasksFrom id values.
Proof.
  induction values as [|v rest IH]; intros id; simpl; [reflexivity|].
  rewrite IH. reflexivity.
Qed.

Lemma sendNewTasks_cons v rest w :
  sendNewTasks (v :: rest) w =
  sendNewTasks rest
    (sendMessage (MESSAGE_TYPE_TASK (mkTask (nextId (env w)) v TASK_STATUS_STARTED None))
       (snd (freshId w))).
Proof. reflexivity. Qed.

(** With the running flag true, each value becomes a [Started] task at the
    end of the store, in the order of the values, and is announced. *)
Lemma sendNewTasks_running values : forall w,
  isRunning (this w) = true ->
  tasks (env (sendNewTasks values w)) =
    (tasks (env w) ++ newTasksFrom (nextId (env w)) values)%list /\
  messages (env (sendNewTasks values w)) =
    (messages (env w) ++ map MESSAGE_TYPE_TASK (newTasksFrom (nextId (env w)) values))%list.
Proof.
  induction values as [|v rest IH]; intros w Hrun.
  - simpl. rewrite !app_nil_r. split; reflexivity.
  - rewrite sendNewTasks_cons.
    assert (Hrun' : isRunning (this (snd (freshId w))) = true) by exact Hrun.
    rewrite (sendMessage_running _ _ Hrun').
    match goal with |- context [sendNewTasks rest ?x] =>
      destruct (IH x Hrun) as [Ht Hm] end.
    rewrite Ht, Hm.
    cbn [renderMessage freshId snd env this tasks messages nextId storeTask status
         TaskStatus_eqb newTasksFrom map].
    rewrite <- !app_assoc. split; reflexivity.
Qed.

(** X1.  When the initial decomposition succeeds, [startGoal] (entered
    with the running flag true, as [run] does) appends one [Started] task
    per returned value to the store, in the order returned, behind the
    tasks already pending; the sink receives the goal, the thinking
    placeholder and then the new tasks in that order; no hook is
    called. *)
Theorem startGoal_materializes_tasks (w : World) (values : list string) :
  isRunning (this w) = true ->
  getInitialTasks (List.length (requests (env w))) = Ok values ->
  exists new,
    map value new = values /\
    Forall (fun t => status t = TASK_STATUS_STARTED) new /\
    tasks (env (startGoal w)) = (tasks (env w) ++ new)%list /\
    getRemainingTasks (startGoal w) = (getRemainingTasks w ++ new)%list /\
    messages (env (startGoal w)) =
      (messages (env w) ++
         MESSAGE_TYPE_GOAL (goal (this w)) :: MESSAGE_TYPE_THINKING ::
         map MESSAGE_TYPE_TASK new)%list /\
    hooks (startGoal w) = hooks w.
Proof.
  intros Hrun Hinit.
  exists (newTasksFrom (nextId (env w)) values).
  assert (Hstart : startGoal w =
            sendNewTasks values
              (logRequest ReqInitialTasks
                 (renderMessage MESSAGE_TYPE_THINKING
                    (renderMessage (MESSAGE_TYPE_GOAL (goal (this w))) w)))).
  { unfold startGoal, sendGoalMessage, sendThinkingMessage.
    rewrite (sendMessage_running _ w Hrun).
    rewrite sendMessage_running by exact Hrun.
    change (requests (env (renderMessage MESSAGE_TYPE_THINKING
              (renderMessage (MESSAGE_TYPE_GOAL (goal (this w))) w))))
      with (requests (env w)).
    rewrite Hinit. reflexivity. }
  match type of Hstart with _ = sendNewTasks _ ?x =>
    destruct (sendNewTasks_running values x Hrun) as [Ht Hm] end.
  simpl in Ht, Hm.
  assert (Hst : Forall (fun t => status t = TASK_STATUS_STARTED)
                  (newTasksFrom (nextId (env w)) values)).
  { clear. generalize (nextId (env w)).
    induction values as [|v rest IH]; intros id; simpl; constructor;
      [reflexivity|apply IH]. }
  split; [apply value_newTasksFrom|]. split; [exact Hst|].
  split; [rewrite Hstart; exact Ht|].
  split; [|split].
  - unfold getRemainingTasks. rewrite Hstart, Ht, filter_app, pending_newTasksFrom.
    reflexivity.
  - rewrite Hstart, Hm, <- !app_assoc. reflexivity.
  - rewrite Hstart, hooks_sendNewTasks. reflexivity.
Qed.

(** ** One pass that executes a task *)

(** The world [pre] in which the follow-up tasks of [t] are asked for:
    [t] was executed with [result], is marked [Completed] in the store and
    ends the history; the request before was the execution of [t]. *)
Lemma runCurrent_Again_pre t w w' :
  isRunning (this w) = true ->
  runCurrent t w = Again w' ->
  exists analysis result pre rs0,
    w' = addNewTasks t result pre /\
    isRunning (this pre) = true /\
    completedTasks (this pre) = (completedTasks (this w) ++ [value t])%list /\
    tasks (env pre) =
      storeTask (withStatus TASK_STATUS_COMPLETED (withInfo result t))
        (storeTask (withStatus TASK_STATUS_EXECUTING t) (tasks (env w))) /\
    nextId (env pre) = nextId (env w) /\
    hooks pre = hooks w /\
    requests (env pre) = (rs0 ++ [ReqExecuteTask (value t) analysis])%list /\
    executeTask (List.length rs0) (value t) analysis = Ok result /\
    (exists before, rs0 = (requests (env w) ++ before)%list).
Proof.
  intros Hrun.
  destruct w as [[g ct cm r n md pc] [ts ms sc hp ws ni rq]].
  simpl in Hrun. subst r.
  unfold runCurrent, executeCurrent, sendThinkingMessage, sendAnalysisMessage, sendMessage.
  cbn -[addNewTasks storeTask analysisText withStatus withInfo].
  destruct ws.
  - destruct (analyzeTask _ _) as [analysis|e]; [|discriminate].
    cbn -[addNewTasks storeTask analysisText withStatus withInfo].
    destruct (executeTask _ _ _) as [result|e] eqn:Hexec; [|discriminate].
    intros H. injection H as <-.
    exists analysis, result. eexists. exists (rq ++ [ReqAnalyzeTask (value t)])%list.
    split; [reflexivity|].
    cbn -[storeTask analysisText withStatus withInfo].
    repeat split; try assumption. eexists. reflexivity.
  - destruct (executeTask _ _ _) as [result|e] eqn:Hexec; [|discriminate].
    intros H. injection H as <-.
    exists defaultAnalysis, result. eexists. exists rq.
    split; [reflexivity|].
    cbn -[storeTask analysisText withStatus withInfo].
    repeat split; try assumption. exists []. symmetry. apply app_nil_r.
Qed.


(** When the backend answers the follow-up request, the new tasks are
    sent, and the current task is marked [Final] only if there is none. *)
Lemma addNewTasks_Ok t r w newTasks :
  isRunning (this w) = true ->
  getAdditionalTasks (List.length (requests (env w))) (value t)
    (map value (getRemainingTasks w)) (completedTasks (this w)) r = Ok newTasks ->
  tasks (env (addNewTasks t r w)) =
    (if Nat.eqb (List.length newTasks) 0
     then storeTask (withStatus TASK_STATUS_FINAL t) (tasks (env w))
     else (tasks (env w) ++ newTasksFrom (nextId (env w)) newTasks)%list).
Proof.
  intros Hrun Hok. unfold addNewTasks, sendThinkingMessage.
  rewrite (sendMessage_running _ _ Hrun).
  change (requests (env (renderMessage MESSAGE_TYPE_THINKING w))) with (requests (env w)).
  change (getRemainingTasks (renderMessage MESSAGE_TYPE_THINKING w))
    with (getRemainingTasks w).
  change (this (renderMessage MESSAGE_TYPE_THINKING w)) with (this w).
  rewrite Hok.
  destruct newTasks as [|v rest].
  - simpl. rewrite sendMessage_running by exact Hrun. reflexivity.
  - change (Nat.eqb (List.length (v :: rest)) 0) with false. cbv iota.
    match goal with |- context [sendNewTasks _ ?x] =>
      destruct (sendNewTasks_running (v :: rest) x Hrun) as [Ht _] end.
    rewrite Ht. reflexivity.
Qed.

(** The pass that reaches the recursive call, from the world it starts
    in. *)
Lemma loopBody_Again_pre (w w' : World) :
  loopBody w = Again w' ->
  exists t rest analysis result pre rs0,
    getRemainingTasks w = t :: rest /\
    w' = addNewTasks t result pre /\
    isRunning (this pre) = true /\
    completedTasks (this pre) = (completedTasks (this w) ++ [value t])%list /\
    tasks (env pre) =
      storeTask (withStatus TASK_STATUS_COMPLETED (withInfo result t))
        (storeTask (withStatus TASK_STATUS_EXECUTING t) (tasks (env w))) /\
    nextId (env pre) = nextId (env w) /\
    hooks pre = hooks w /\
    requests (env pre) = (rs0 ++ [ReqExecuteTask (value t) analysis])%list /\
    executeTask (List.length rs0) (value t) analysis = Ok result /\
    (exists before, rs0 = (requests (env w) ++ before)%list).
Proof.
  intros H. destruct (loopBody_Again _ _ H) as (t & rest & Hrun & Hrem & _ & Hcur).
  rewrite getRemainingTasks_conditionalPause in Hrem.
  destruct (runCurrent_Again_pre t
              (set_numLoops (numLoops (this (conditionalPause w)) + 1) (conditionalPause w))
              w' Hrun Hcur)
    as (analysis & result & pre & rs0 & Hw' & Hprun & Hhist & Htasks & Hid & Hhooks &
        Hreq & Hexec & Hbefore).
  exists t, rest, analysis, result, pre, rs0.
  pose proof (conditionalPause_frame w) as (Henv & _ & _ & _ & Hct & _).
  cbn [set_numLoops this env completedTasks] in Hhist, Htasks, Hid, Hbefore.
  change (hooks (set_numLoops (numLoops (this (conditionalPause w)) + 1)
                   (conditionalPause w)))
    with (hooks (conditionalPause w)) in Hhooks.
  rewrite hooks_conditionalPause in Hhooks.
  rewrite Henv in Htasks, Hid, Hbefore. rewrite Hct in Hhist.
  repeat split; assumption.
Qed.

(** The pending tasks in [pre]: the former ones without the current
    task. *)
Lemma pending_pre (t : Task) (rest : list Task) (result : string) (w pre : World) :
  getRemainingTasks w = t :: rest ->
  tasks (env pre) =
    storeTask (withStatus TASK_STATUS_COMPLETED (withInfo result t))
      (storeTask (withStatus TASK_STATUS_EXECUTING t) (tasks (env w))) ->
  getRemainingTasks pre =
    filter (fun x => negb (Nat.eqb (taskId x) (taskId t))) rest.
Proof.
  intros Hrem Htasks. unfold getRemainingTasks at 1. rewrite Htasks.
  rewrite storeTask_mark_again by (simpl; congruence).
  rewrite pending_after_mark by (simpl; discriminate).
  fold (getRemainingTasks w). rewrite Hrem. simpl. rewrite Nat.eqb_refl. reflexivity.
Qed.

(** X3.  In a pass that reaches the recursive call, the last two requests
    to the backend are the execution of the selected task, the head of the
    pending tasks, and the follow-up request; the latter carries the value
    of that task, the values of the tasks still pending without the
    selected one, the history ending with the value of the selected task,
    and the result that the backend gave for the execution. *)
Theorem followup_request_arguments (w w' : World) :
  loopBody w = Again w' ->
  exists t rest analysis result rs0,
    getRemainingTasks w = t :: rest /\
    executeTask (List.length rs0) (value t) analysis = Ok result /\
    requests (env w') =
      (rs0 ++
         [ReqExecuteTask (value t) analysis;
          ReqAdditionalTasks (value t)
            (map value (filter (fun x => negb (Nat.eqb (taskId x) (taskId t))) rest))
            (completedTasks (this w) ++ [value t]) result])%list.
Proof.
  intros H.
  destruct (loopBody_Again_pre _ _ H)
    as (t & rest & analysis & result & pre & rs0 & Hrem & Hw' & Hprun & Hhist & Htasks &
        _ & _ & Hreq & Hexec & _).
  exists t, rest, analysis, result, rs0.
  split; [exact Hrem|]. split; [exact Hexec|].
  rewrite Hw', (requests_addNewTasks _ _ _ Hprun), Hreq, Hhist.
  rewrite (pending_pre _ _ _ _ _ Hrem Htasks), <- app_assoc. reflexivity.
Qed.

(** X2.  Take a pass that reaches the recursive call and whose follow-up
    request, the last request it made, was answered with [newTasks].  The
    pass selected the head [t] of the pending tasks.  In the store every
    task with the identity of [t] is now [t] marked [Final] when
    [newTasks] is empty and [t] marked [Completed] with the result
    otherwise, and one [Started] task per value of [newTasks] stands at
    the end, in order; the pending tasks are the former ones without [t],
    followed by the new ones; the value of [t] ends the history; no hook
    was called. *)
Theorem pass_with_followups
    (w w' : World) (rs : list Request)
    (cur : string) (rem comp : list string) (res : string) (newTasks : list string) :
  loopBody w = Again w' ->
  requests (env w') = (rs ++ [ReqAdditionalTasks cur rem comp res])%list ->
  getAdditionalTasks (List.length rs) cur rem comp res = Ok newTasks ->
  exists t rest done new,
    getRemainingTasks w = t :: rest /\
    value t = cur /\
    done = (if Nat.eqb (List.length newTasks) 0
            then withStatus TASK_STATUS_FINAL t
            else withStatus TASK_STATUS_COMPLETED (withInfo res t)) /\
    map value new = newTasks /\
    Forall (fun x => status x = TASK_STATUS_STARTED) new /\
    tasks (env w') =
      (map (fun x => if Nat.eqb (taskId x) (taskId t) then done else x) (tasks (env w))
         ++ new)%list /\
    getRemainingTasks w' =
      (filter (fun x => negb (Nat.eqb (taskId x) (taskId t))) rest ++ new)%list /\
    completedTasks (this w') = (completedTasks (this w) ++ [cur])%list /\
    hooks w' = hooks w.
Proof.
  intros Hbody Hreq Hok.
  destruct (loopBody_Again_pre _ _ Hbody)
    as (t & rest & analysis & result & pre & rs0 & Hrem & Hw' & Hprun & Hhist & Htasks &
        Hid & Hhooks & Hreqpre & _ & _).
  rewrite Hw', (requests_addNewTasks _ _ _ Hprun) in Hreq.
  apply app_inj_tail in Hreq. destruct Hreq as [Hrs Hr].
  injection Hr as Hcurv Hremv Hcompv Hresv. subst rs cur rem comp res.
  pose proof (addNewTasks_Ok _ _ _ _ Hprun Hok) as Hstore.
  rewrite <- Hw', Hid, Htasks in Hstore.
  assert (Hnew : Forall (fun x => status x = TASK_STATUS_STARTED)
                   (newTasksFrom (nextId (env w)) newTasks)).
  { clear. generalize (nextId (env w)).
    induction newTasks as [|v l IH]; intros id; simpl; constructor;
      [reflexivity|apply IH]. }
  exists t, rest,
    (if Nat.eqb (List.length newTasks) 0
     then withStatus TASK_STATUS_FINAL t
     else withStatus TASK_STATUS_COMPLETED (withInfo result t)),
    (newTasksFrom (nextId (env w)) newTasks).
  split; [exact Hrem|]. split; [reflexivity|]. split; [reflexivity|].
  split; [apply value_newTasksFrom|]. split; [exact Hnew|].
  assert (Htasks' : tasks (env w') =
            (map (fun x => if Nat.eqb (taskId x) (taskId t)
                           then (if Nat.eqb (List.length newTasks) 0
                                 then withStatus TASK_STATUS_FINAL t
                                 else withStatus TASK_STATUS_COMPLETED (withInfo result t))
                           else x) (tasks (env w))
               ++ newTasksFrom (nextId (env w)) newTasks)%list).
  { rewrite Hstore. destruct newTasks as [|v l].
    - simpl Nat.eqb. cbv iota. simpl newTasksFrom. rewrite app_nil_r.
      rewrite !storeTask_mark_again by (simpl; congruence).
      rewrite storeTask_mark by (simpl; discriminate). reflexivity.
    - change (Nat.eqb (List.length (v :: l)) 0) with false. cbv iota.
      rewrite storeTask_mark_again by (simpl; congruence).
      rewrite storeTask_mark by (simpl; discriminate). reflexivity. }
  split; [exact Htasks'|]. split; [|split].
  - unfold getRemainingTasks at 1. rewrite Htasks', filter_app, pending_newTasksFrom.
    f_equal.
    assert (Hdone : status (if Nat.eqb (List.length newTasks) 0
                            then withStatus TASK_STATUS_FINAL t
                            else withStatus TASK_STATUS_COMPLETED (withInfo result t))
                    <> TASK_STATUS_STARTED)
      by (destruct (Nat.eqb _ _); simpl; discriminate).
    assert (Hdid : taskId (if Nat.eqb (List.length newTasks) 0
                           then withStatus TASK_STATUS_FINAL t
                           else withStatus TASK_STATUS_COMPLETED (withInfo result t))
                   = taskId t)
      by (destruct (Nat.eqb _ _); reflexivity).
    pose proof (pending_after_mark _ (tasks (env w)) Hdone) as Hp.
    rewrite storeTask_mark in Hp by exact Hdone. rewrite Hdid in Hp.
    rewrite Hp. fold (getRemainingTasks w). rewrite Hrem. simpl.
    rewrite Nat.eqb_refl. reflexivity.
  - rewrite Hw', this_addNewTasks. exact Hhist.
  - rewrite Hw', hooks_addNewTasks. exact Hhooks.
Qed.


(** ** What the budget bounds *)

Lemma execs_sendMessage m w : executeRequests (sendMessage m w) = executeRequests w.
Proof. unfold executeRequests. rewrite requests_sendMessage. reflexivity. Qed.

Lemma execs_logRequest r w :
  executeRequests (logRequest r w) =
  (executeRequests w + if isExecuteRequest r then 1 else 0)%nat.
Proof.
  unfold executeRequests. simpl. rewrite filter_app, length_app. simpl.
  destruct (isExecuteRequest r); reflexivity.
Qed.

Lemma execs_addNewTasks t r w : executeRequests (addNewTasks t r w) = executeRequests w.
Proof.
  unfold addNewTasks, sendThinkingMessage, sendErrorMessage.
  assert (Hsnt : forall vs x, executeRequests (sendNewTasks vs x) = executeRequests x)
    by (intros; unfold executeRequests; rewrite requests_sendNewTasks; reflexivity).
  destruct (getAdditionalTasks _ _ _ _ _) as [newTasks|e].
  - destruct (Nat.eqb _ _); [rewrite execs_sendMessage|];
      rewrite Hsnt, execs_logRequest, execs_sendMessage; simpl; apply Nat.add_0_r.
  - rewrite !execs_sendMessage, execs_logRequest, execs_sendMessage. simpl.
    apply Nat.add_0_r.
Qed.

(** [runCurrent] asks for at most one execution, and adds at most one
    value to the history. *)
Lemma runCurrent_work t w :
  (executeRequests (stepWorld (runCurrent t w)) <= S (executeRequests w))%nat /\
  exists more,
    completedTasks (this (stepWorld (runCurrent t w))) = (completedTasks (this w) ++ more)%list /\
    (List.length more <= 1)%nat.
Proof.
  unfold runCurrent, sendThinkingMessage, sendAnalysisMessage.
  set (w1 := sendMessage MESSAGE_TYPE_THINKING _).
  assert (He1 : executeRequests w1 = executeRequests w)
    by (unfold w1; rewrite !execs_sendMessage; reflexivity).
  assert (Hc1 : completedTasks (this w1) = completedTasks (this w))
    by (unfold w1; rewrite !this_sendMessage; reflexivity).
  assert (Hexec : forall a x,
            executeRequests x = executeRequests w ->
            completedTasks (this x) = completedTasks (this w) ->
            (executeRequests (stepWorld (executeCurrent t a x)) <= S (executeRequests w))%nat /\
            exists more,
              completedTasks (this (stepWorld (executeCurrent t a x))) =
                (completedTasks (this w) ++ more)%list /\
              (List.length more <= 1)%nat).
  { intros a x Hex Hcx. unfold executeCurrent.
    destruct (executeTask _ _ _) as [result|e]; simpl.
    - split.
      + rewrite execs_addNewTasks.
        change (executeRequests (push_completedTasks (value t)
                  (sendMessage
                     (MESSAGE_TYPE_TASK
                        (withStatus TASK_STATUS_COMPLETED (withInfo result t)))
                     (logRequest (ReqExecuteTask (value t) a) x))))
          with (executeRequests
                  (sendMessage
                     (MESSAGE_TYPE_TASK
                        (withStatus TASK_STATUS_COMPLETED (withInfo result t)))
                     (logRequest (ReqExecuteTask (value t) a) x))).
        rewrite execs_sendMessage, execs_logRequest, Hex. simpl. lia.
      + exists [value t]. rewrite this_addNewTasks. simpl.
        rewrite this_sendMessage. simpl. rewrite Hcx. split; [reflexivity|lia].
    - split.
      + rewrite execs_logRequest, Hex. simpl. lia.
      + exists []. rewrite app_nil_r. split; [exact Hcx|simpl; lia]. }
  destruct (isWebSearchEnabled (env w1)).
  - destruct (analyzeTask _ _) as [analysis|e]; simpl.
    + apply Hexec.
      * rewrite execs_sendMessage, execs_logRequest, He1. simpl. apply Nat.add_0_r.
      * rewrite this_sendMessage. exact Hc1.
    + split.
      * rewrite execs_logRequest, He1. simpl. lia.
      * exists []. rewrite app_nil_r. split; [exact Hc1|simpl; lia].
  - apply Hexec; assumption.
Qed.

(** A pass does work only if it got through the budget check. *)
Lemma loopBody_work (w : World) :
  exists more,
    completedTasks (this (stepWorld (loopBody w))) = (completedTasks (this w) ++ more)%list /\
    (executeRequests (stepWorld (loopBody w)) <= executeRequests w + 1)%nat /\
    (List.length more <= 1)%nat /\
    (numLoops (this w) + 1 <= maxLoops w \/
     (more = [] /\ executeRequests (stepWorld (loopBody w)) = executeRequests w)).
Proof.
  pose proof (conditionalPause_frame w) as (Henv & _ & _ & _ & Hct & _).
  assert (Hecp : executeRequests (conditionalPause w) = executeRequests w)
    by (unfold executeRequests; rewrite Henv; reflexivity).
  destruct (loopBody_cases w) as [(_ & Hb)|[(_ & _ & Hb)|
    [(t & rest & _ & _ & _ & Hb)|(t & rest & _ & _ & Hle & Hb)]]]; rewrite Hb.
  - exists []. rewrite app_nil_r. simpl. rewrite Hct, Hecp.
    repeat split; try lia. right. split; reflexivity.
  - exists []. rewrite app_nil_r. simpl. unfold sendCompletedMessage.
    rewrite this_sendMessage, Hct.
    change (executeRequests (shutdown ?x)) with (executeRequests x).
    rewrite execs_sendMessage, Hecp.
    repeat split; try lia. right. split; reflexivity.
  - exists []. rewrite app_nil_r. simpl. unfold sendLoopMessage.
    rewrite this_sendMessage. simpl. rewrite Hct.
    change (executeRequests (shutdown ?x)) with (executeRequests x).
    rewrite execs_sendMessage.
    change (executeRequests (set_numLoops ?n ?x)) with (executeRequests x).
    rewrite Hecp.
    repeat split; try lia. right. split; reflexivity.
  - destruct (runCurrent_work t
      (set_numLoops (numLoops (this (conditionalPause w)) + 1) (conditionalPause w)))
      as (He & more & Hc & Hlen).
    change (executeRequests (set_numLoops (numLoops (this (conditionalPause w)) + 1)
                               (conditionalPause w)))
      with (executeRequests (conditionalPause w)) in He.
    cbn [set_numLoops this completedTasks] in Hc.
    rewrite Hecp in He. rewrite Hct in Hc.
    exists more. split; [exact Hc|]. split; [lia|]. split; [exact Hlen|].
    left. exact Hle.
Qed.

Lemma loop_work fuel : forall w o,
  loop fuel w = Some o ->
  exists more,
    completedTasks (this (worldOf o)) = (completedTasks (this w) ++ more)%list /\
    (List.length more <= Z.to_nat (maxLoops w - numLoops (this w)))%nat /\
    (executeRequests (worldOf o)
     <= executeRequests w + Z.to_nat (maxLoops w - numLoops (this w)))%nat.
Proof.
  induction fuel as [|fuel IH]; intros w o H; [discriminate|].
  simpl in H. destruct (loopBody_work w) as (more & Hc & He & Hlen & Hbudget).
  destruct (loopBody w) as [o'|w'] eqn:Hbody.
  - injection H as <-. simpl in Hc, He, Hbudget. exists more.
    split; [exact Hc|].
    destruct Hbudget as [Hle|[-> Heq]]; [split; lia|].
    rewrite Heq. simpl. split; lia.
  - destruct (loopBody_Again_counter _ _ Hbody) as (Hn & Hm & Hle).
    destruct (IH _ _ H) as (more' & Hc' & Hlen' & He').
    simpl in Hc, He. rewrite Hm, Hn in Hlen', He', Hle.
    exists (more ++ more')%list. rewrite Hc', Hc, <- app_assoc.
    split; [reflexivity|]. rewrite length_app. split; lia.
Qed.

(** X5.  The budget bounds the work of a call of [loop]: it asks the
    backend for at most [maxLoops - numLoops] executions, none when the
    counter has reached [maxLoops]; the history only grows, at its end,
    and by at most as many values. *)
Theorem loop_work_within_budget (fuel : nat) (w : World) (o : Outcome) :
  loop fuel w = Some o ->
  exists more,
    completedTasks (this (worldOf o)) = (completedTasks (this w) ++ more)%list /\
    (List.length more <= Z.to_nat (maxLoops w - numLoops (this w)))%nat /\
    (executeRequests (worldOf o)
     <= executeRequests w + Z.to_nat (maxLoops w - numLoops (this w)))%nat.
Proof. apply loop_work. Qed.

(** ** No task is left [Executing] *)








(** ** Without web search *)

Lemma asks_refl P w : asks P w w.
Proof. exists []. split; [symmetry; apply app_nil_r|constructor]. Qed.

Lemma asks_trans P w1 w2 w3 : asks P w1 w2 -> asks P w2 w3 -> asks P w1 w3.
Proof.
  intros (m1 & H1 & F1) (m2 & H2 & F2). exists (m1 ++ m2)%list.
  split; [rewrite H2, H1; symmetry; apply app_assoc|].
  apply Forall_app. split; assumption.
Qed.

Lemma asks_same P w w' : requests (env w') = requests (env w) -> asks P w w'.
Proof. intros H. exists []. split; [rewrite H; symmetry; apply app_nil_r|constructor]. Qed.

Lemma asks_logRequest (P : Request -> Prop) r w : P r -> asks P w (logRequest r w).
Proof. intros H. exists [r]. split; [reflexivity|]. constructor; [exact H|constructor]. Qed.

Lemma asks_addNewTasks (P : Request -> Prop) t r w :
  (forall c rm cp rs, P (ReqAdditionalTasks c rm cp rs)) ->
  asks P w (addNewTasks t r w).
Proof.
  intros HP. unfold addNewTasks, sendThinkingMessage, sendErrorMessage.
  set (w1 := sendMessage MESSAGE_TYPE_THINKING w).
  set (rq := ReqAdditionalTasks _ _ _ _).
  assert (H1 : asks P w (logRequest rq w1)).
  { eapply asks_trans; [apply asks_same; apply requests_sendMessage|].
    apply asks_logRequest. apply HP. }
  destruct (getAdditionalTasks _ _ _ _ _) as [newTasks|e].
  - assert (H2 : asks P w (sendNewTasks newTasks (logRequest rq w1))).
    { eapply asks_trans; [exact H1|]. apply asks_same. apply requests_sendNewTasks. }
    destruct (Nat.eqb _ _); [|exact H2].
    eapply asks_trans; [exact H2|]. apply asks_same. apply requests_sendMessage.
  - eapply asks_trans; [exact H1|]. apply asks_same.
    rewrite !requests_sendMessage. reflexivity.
Qed.

Lemma asks_executeCurrent (P : Request -> Prop) t a w :
  P (ReqExecuteTask (value t) a) ->
  (forall c rm cp rs, P (ReqAdditionalTasks c rm cp rs)) ->
  asks P w (stepWorld (executeCurrent t a w)).
Proof.
  intros Hexec Hadd. unfold executeCurrent.
  destruct (executeTask _ _ _) as [result|e]; simpl.
  - eapply asks_trans; [apply asks_logRequest; exact Hexec|].
    eapply asks_trans; [|apply asks_addNewTasks; exact Hadd].
    apply asks_same. simpl. apply requests_sendMessage.
  - apply asks_logRequest. exact Hexec.
Qed.

Lemma plain_runCurrent t w :
  isWebSearchEnabled (env w) = false ->
  asks plainRequest w (stepWorld (runCurrent t w)).
Proof.
  intros Hweb. unfold runCurrent, sendThinkingMessage.
  set (w1 := sendMessage MESSAGE_TYPE_THINKING _).
  assert (Hh : hooks w1 = hooks w) by (unfold w1; rewrite !hooks_sendMessage; reflexivity).
  assert (Hw1 : isWebSearchEnabled (env w1) = false).
  { unfold hooks in Hh. injection Hh as _ _ ->. exact Hweb. }
  rewrite Hw1.
  eapply asks_trans; [|apply asks_executeCurrent; [reflexivity|intros; exact I]].
  apply asks_same. unfold w1. rewrite !requests_sendMessage. reflexivity.
Qed.

Lemma plain_loopBody (w : World) :
  isWebSearchEnabled (env w) = false ->
  asks plainRequest w (stepWorld (loopBody w)).
Proof.
  intros Hweb. pose proof (env_conditionalPause w) as Henv.
  destruct (loopBody_cases w) as [(_ & Hb)|[(_ & _ & Hb)|
    [(t & rest & _ & _ & _ & Hb)|(t & rest & _ & _ & _ & Hb)]]]; rewrite Hb.
  - apply asks_same. simpl. rewrite Henv. reflexivity.
  - apply asks_same. simpl. unfold sendCompletedMessage.
    rewrite requests_sendMessage, Henv. reflexivity.
  - apply asks_same. simpl. unfold sendLoopMessage.
    rewrite requests_sendMessage. simpl. rewrite Henv. reflexivity.
  - eapply asks_trans; [|apply plain_runCurrent; simpl; rewrite Henv; exact Hweb].
    apply asks_same. simpl. rewrite Henv. reflexivity.
Qed.

Lemma plain_loop fuel : forall w o,
  isWebSearchEnabled (env w) = false ->
  loop fuel w = Some o -> asks plainRequest w (worldOf o).
Proof.
  induction fuel as [|fuel IH]; intros w o Hweb H; [discriminate|].
  simpl in H. pose proof (plain_loopBody w Hweb) as Hp.
  pose proof (loopBody_hooks w) as Hh.
  destruct (loopBody w) as [o'|w'].
  - injection H as <-. exact Hp.
  - eapply asks_trans; [exact Hp|]. apply (IH w' o); [|exact H].
    unfold hooks in Hh. injection Hh as _ _ ->. exact Hweb.
Qed.

(** X13.  With the web-search toggle off, a [run] never asks the backend
    for an analysis, and every execution it asks for carries the default
    analysis with the action "reason". *)
Theorem no_analysis_without_web_search (fuel : nat) (w : World) (o : Outcome) :
  isWebSearchEnabled (env w) = false ->
  run fuel w = Some o ->
  asks plainRequest w (worldOf o).
Proof.
  intros Hweb. unfold run.
  set (w0 := if negb (isRunning (this w)) then startGoal (set_isRunning true w) else w).
  assert (H0 : asks plainRequest w w0).
  { unfold w0. destruct (negb _); [|apply asks_refl].
    exists [ReqInitialTasks]. split; [rewrite requests_startGoal; reflexivity|].
    constructor; [exact I|constructor]. }
  assert (Hweb0 : isWebSearchEnabled (env w0) = false).
  { unfold w0. destruct (negb _); [|exact Hweb].
    unfold startGoal, sendGoalMessage, sendThinkingMessage, sendErrorMessage.
    assert (Hh : forall x y, hooks x = hooks y ->
                             isWebSearchEnabled (env x) = isWebSearchEnabled (env y)).
    { intros x y H. unfold hooks in H. injection H as _ _ H. exact H. }
    destruct (getInitialTasks _) as [values|e].
    - rewrite (Hh _ (set_isRunning true w)); [exact Hweb|].
      rewrite hooks_sendNewTasks, hooks_logRequest, !hooks_sendMessage. reflexivity.
    - match goal with |- isWebSearchEnabled (env (shutdown ?x)) = _ =>
        change (isWebSearchEnabled (env x) = false) end.
      rewrite (Hh _ (set_isRunning true w)); [exact Hweb|].
      rewrite hooks_sendMessage, hooks_logRequest, !hooks_sendMessage. reflexivity. }
  destruct (loop fuel w0) as [[w1|e w1]|] eqn:Hloop; intros H; try discriminate;
    injection H as <-; pose proof (plain_loop _ _ _ Hweb0 Hloop) as H1; simpl in H1.
  - eapply asks_trans; [exact H0|].
    eapply asks_trans; [exact H1|]. apply asks_same. destruct (_ && _); reflexivity.
  - eapply asks_trans; [exact H0|exact H1].
Qed.

(** ** The classification of bootstrap errors *)

(** X10.  [getMessageFromError] picks its key as follows: an error that is
    not an axios error gets the key of the failed retrieval of the initial
    tasks; an axios error with status 404 gets the key of the missing
    GPT-4 access; every other axios error, with any status or with no
    response, gets the key of the failed access to the API key.  The quota
    key is never picked. *)
Theorem error_key_table (e : ApiError) :
  (messageKeyFromError e = "ERROR_RETRIEVE_INITIAL_TASKS" <-> e = OtherError) /\
  (messageKeyFromError e = "ERROR_OPENAI_API_KEY_NO_GPT4" <-> e = AxiosError (Some 404)) /\
  (messageKeyFromError e = "ERROR_ACCESSING_OPENAI_API_KEY" <->
   exists s, e = AxiosError s /\ s <> Some 404) /\
  messageKeyFromError e <> "ERROR_API_KEY_QUOTA".
Proof.
  destruct e as [[s|]|]; unfold messageKeyFromError; simpl isAxiosError; cbv iota;
    simpl isStatus.
  - destruct (Z.eqb_spec s 404) as [->|Hne].
    + repeat split; try discriminate; try reflexivity.
      intros (s' & Hs & Hn). congruence.
    + repeat split; try discriminate.
      * intros H. congruence.
      * intros _. exists (Some s). split; [reflexivity|congruence].
  - repeat split; try discriminate.
    intros _. exists None. split; [reflexivity|discriminate].
  - repeat split; try discriminate.
    intros (s & Hs & _). discriminate.
Qed.

(** ** The shape of an API key *)

Lemma append_length (a b : string) :
  String.length (a ++ b) = (String.length a + String.length b)%nat.
Proof. induction a as [|c a IH]; simpl; [reflexivity|]. rewrite IH. reflexivity. Qed.

Lemma append_empty (a : string) : a ++ EmptyString = a.
Proof. induction a as [|c a IH]; simpl; [reflexivity|]. rewrite IH. reflexivity. Qed.

Lemma matchAlnums_spec n : forall s r,
  matchAlnums n s = Some r <->
  exists body, s = body ++ r /\ String.length body = n /\ allAlnum body.
Proof.
  induction n as [|n IH]; intros s r; simpl.
  - split.
    + intros H. injection H as <-. exists EmptyString.
      repeat split. constructor.
    + intros (body & -> & Hlen & _). destruct body; [reflexivity|discriminate].
  - destruct s as [|c s'].
    + split; [discriminate|].
      intros (body & Hs & Hlen & _). destruct body; discriminate.
    + destruct (isAlnum c) eqn:Hc.
      * rewrite IH. split.
        -- intros (body & -> & Hlen & Hall). exists (String c body).
           split; [reflexivity|]. split; [simpl; congruence|].
           constructor; assumption.
        -- intros (body & Hs & Hlen & Hall). destruct body as [|c' body]; [discriminate|].
           simpl in Hs. injection Hs as <- ->. exists body.
           split; [reflexivity|]. split; [simpl in Hlen; congruence|].
           inversion Hall. assumption.
      * split; [discriminate|].
        intros (body & Hs & Hlen & Hall). destruct body as [|c' body]; [discriminate|].
        simpl in Hs. injection Hs as <- ->.
        inversion Hall as [|x l Hx Hl]. congruence.
Qed.

(** X12.  [isValidSkKey] accepts exactly the strings made of "sk-"
    followed by 48 characters that are ASCII letters or digits.  So an
    accepted key has 51 characters, and no accepted key stays accepted
    when anything is put before or after it. *)
Theorem isValidSkKey_spec (apikey : string) :
  (isValidSkKey apikey = true <->
   exists body, apikey = "sk-" ++ body /\ String.length body = 48%nat /\ allAlnum body) /\
  (isValidSkKey apikey = true -> String.length apikey = 51%nat) /\
  (isValidSkKey apikey = true ->
   forall extra, extra <> EmptyString ->
     isValidSkKey (apikey ++ extra) = false /\ isValidSkKey (extra ++ apikey) = false).
Proof.
  assert (Hiff : forall k,
            isValidSkKey k = true <->
            exists body, k = "sk-" ++ body /\ String.length body = 48%nat /\ allAlnum body).
  { intros k. unfold isValidSkKey. split.
    - destruct k as [|c1 [|c2 [|c3 rest]]]; try discriminate.
      intros H. apply andb_prop in H. destruct H as [H H4].
      apply andb_prop in H. destruct H as [H H3].
      apply andb_prop in H. destruct H as [H1 H2].
      apply Ascii.eqb_eq in H1, H2, H3. subst c1 c2 c3.
      destruct (matchAlnums 48 rest) as [[|c r]|] eqn:Hm; try discriminate.
      apply matchAlnums_spec in Hm. destruct Hm as (body & Hr & Hlen & Hall).
      exists body. split; [|split; assumption].
      rewrite Hr, append_empty. reflexivity.
    - intros (body & -> & Hlen & Hall).
      change ("sk-" ++ body) with (String "s" (String "k" (String "-" body))).
      cbv beta iota. rewrite !Ascii.eqb_refl. cbn [andb].
      assert (Hm : matchAlnums 48 body = Some EmptyString).
      { apply matchAlnums_spec. exists body. split; [|split; assumption].
        symmetry. apply append_empty. }
      rewrite Hm. reflexivity. }
  assert (Hlen : forall k, isValidSkKey k = true -> String.length k = 51%nat).
  { intros k Hk. apply Hiff in Hk. destruct Hk as (body & -> & Hl & _).
    rewrite append_length, Hl. reflexivity. }
  split; [apply Hiff|]. split; [apply Hlen|].
  intros Hvalid extra Hextra.
  assert (Hpos : (0 < String.length extra)%nat)
    by (destruct extra; [congruence|simpl; lia]).
  pose proof (Hlen _ Hvalid) as H51.
  split.
  - destruct (isValidSkKey (apikey ++ extra)) eqn:Hv; [|reflexivity].
    apply Hlen in Hv. rewrite append_length in Hv. lia.
  - destruct (isValidSkKey (extra ++ apikey)) eqn:Hv; [|reflexivity].
    apply Hlen in Hv. rewrite append_length in Hv. lia.
Qed.

End Further.

(** * The further properties on concrete inputs *)

Section FurtherExamples.

(** X1 on the first bootstrap of the trip. *)
Lemma startGoal_materializes_tasks_witness :
  let w := set_isRunning true (newWorld None None None) in
  isRunning (this w) = true /\
  @getInitialTasks tripApi (List.length (requests (env w))) = Ok ["Book flight"; "Book hotel"] /\
  map value (getRemainingTasks (@startGoal keyTables tripApi w)) = ["Book flight"; "Book hotel"].
Proof.
  intros w.
  destruct (@startGoal_materializes_tasks keyTables tripApi w
              ["Book flight"; "Book hotel"] eq_refl eq_refl)
    as (new & Hval & _ & _ & Hpending & _).
  split; [reflexivity|]. split; [reflexivity|].
  rewrite Hpending. exact Hval.
Defined.

(** X2 on the trip, with a backend that adds a task. *)
Lemma pass_with_followups_witness :
  let w := tripWorld None AUTOMATIC_MODE AGENT_PLAY in
  let w' := stepWorld (@loopBody keyTables packingApi w) in
  @loopBody keyTables packingApi w = Again w' /\
  requests (env w') =
    ([ReqExecuteTask "Book flight" defaultAnalysis] ++
     [ReqAdditionalTasks "Book flight" ["Book hotel"] ["Book flight"] "done"])%list /\
  @getAdditionalTasks packingApi
    (List.length [ReqExecuteTask "Book flight" defaultAnalysis])
    "Book flight" ["Book hotel"] ["Book flight"] "done" = Ok ["Pack bags"] /\
  exists t rest new,
    getRemainingTasks w = t :: rest /\
    map value new = ["Pack bags"] /\
    getRemainingTasks w' =
      (filter (fun x => negb (Nat.eqb (taskId x) (taskId t))) rest ++ new)%list.
Proof.
  intros w w'.
  assert (H1 : @loopBody keyTables packingApi w = Again w') by (vm_compute; reflexivity).
  assert (H2 : requests (env w') =
               ([ReqExecuteTask "Book flight" defaultAnalysis] ++
                [ReqAdditionalTasks "Book flight" ["Book hotel"] ["Book flight"] "done"])%list)
    by (vm_compute; reflexivity).
  assert (H3 : @getAdditionalTasks packingApi
                 (List.length [ReqExecuteTask "Book flight" defaultAnalysis])
                 "Book flight" ["Book hotel"] ["Book flight"] "done" = Ok ["Pack bags"])
    by reflexivity.
  destruct (@pass_with_followups keyTables packingApi w w' _ _ _ _ _ _ H1 H2 H3)
    as (t & rest & done & new & Hrem & _ & _ & Hval & _ & _ & Hpending & _).
  repeat split; try assumption.
  exists t, rest, new. repeat split; assumption.
Defined.

(** X3 on the trip. *)
Lemma followup_request_arguments_witness :
  let w := tripWorld None AUTOMATIC_MODE AGENT_PLAY in
  let w' := stepWorld (@loopBody keyTables tripApi w) in
  @loopBody keyTables tripApi w = Again w' /\
  exists t rest analysis result rs0,
    getRemainingTasks w = t :: rest /\
    requests (env w') =
      (rs0 ++
         [ReqExecuteTask (value t) analysis;
          ReqAdditionalTasks (value t)
            (map value (filter (fun x => negb (Nat.eqb (taskId x) (taskId t))) rest))
            (completedTasks (this w) ++ [value t]) result])%list.
Proof.
  intros w w'.
  assert (H1 : @loopBody keyTables tripApi w = Again w') by (vm_compute; reflexivity).
  destruct (@followup_request_arguments keyTables tripApi w w' H1)
    as (t & rest & analysis & result & rs0 & Hrem & _ & Hreq).
  split; [exact H1|]. exists t, rest, analysis, result, rs0. split; assumption.
Defined.


(** X5 on the trip with a budget of one loop. *)
Lemma loop_work_within_budget_witness :
  let w := tripWorld (Some 1) AUTOMATIC_MODE AGENT_PLAY in
  exists o,
    @loop keyTables tripApi 3 w = Some o /\
    (executeRequests (worldOf o) <= executeRequests w + 1)%nat.
Proof.
  intros w.
  destruct (@loop keyTables tripApi 3 w) as [o|] eqn:Hloop;
    [|vm_compute in Hloop; discriminate].
  exists o. split; [reflexivity|].
  destruct (@loop_work_within_budget keyTables tripApi 3 w o Hloop) as (more & _ & _ & He).
  exact He.
Defined.


(** X7 on a new agent with the default budget. *)
Lemma run_returns_witness :
  (@budgetLeft keyTables (newWorld None None None) < 6)%nat /\
  exists o, @run keyTables packingApi 6 (newWorld None None None) = Some o.
Proof.
  assert (H : (@budgetLeft keyTables (newWorld None None None) < 6)%nat)
    by (vm_compute; lia).
  split; [exact H|].
  exact (@run_returns keyTables packingApi 6 (newWorld None None None) H).
Defined.

(** X8 on a single step of the trip in Stepwise mode. *)
Lemma run_pause_notification_witness :
  let w := tripWorld None PAUSE_MODE AGENT_PLAY in
  exists w',
    @run keyTables tripApi 2 w = Some (Returned w') /\
    handlePauseCalls (env w') =
      (handlePauseCalls (env w) ++
         if AgentMode_eqb (mode (this w)) PAUSE_MODE && negb (isRunning (this w'))
         then [AGENT_PAUSE] else [])%list.
Proof.
  intros w.
  destruct (@run keyTables tripApi 2 w) as [[w'|e w']|] eqn:Hrun;
    [|vm_compute in Hrun; discriminate|vm_compute in Hrun; discriminate].
  exists w'. split; [reflexivity|].
  exact (@run_pause_notification keyTables tripApi 2 w (Returned w') Hrun).
Defined.

(** X10 on an axios error with status 404. *)
Lemma error_key_table_witness :
  messageKeyFromError (AxiosError (Some 404)) = "ERROR_OPENAI_API_KEY_NO_GPT4".
Proof.
  destruct (error_key_table (AxiosError (Some 404))) as (_ & H404 & _).
  apply H404. reflexivity.
Defined.


(** X12 on a key of the right shape. *)
Lemma isValidSkKey_spec_witness :
  isValidSkKey sampleKey = true /\
  String.length sampleKey = 51%nat /\
  isValidSkKey (sampleKey ++ " ") = false.
Proof.
  assert (Hvalid : isValidSkKey sampleKey = true) by reflexivity.
  destruct (isValidSkKey_spec sampleKey) as (_ & Hlen & Hpad).
  split; [exact Hvalid|]. split; [exact (Hlen Hvalid)|].
  apply (Hpad Hvalid " "). discriminate.
Defined.

(** X13 on the trip. *)
Lemma no_analysis_without_web_search_witness :
  let w := tripWorld None AUTOMATIC_MODE AGENT_PLAY in
  isWebSearchEnabled (env w) = false /\
  exists o, @run keyTables tripApi 4 w = Some o /\ asks plainRequest w (worldOf o).
Proof.
  intros w. split; [reflexivity|].
  destruct (@run keyTables tripApi 4 w) as [o|] eqn:Hrun;
    [|vm_compute in Hrun; discriminate].
  exists o. split; [reflexivity|].
  exact (@no_analysis_without_web_search keyTables tripApi 4 w o eq_refl Hrun).
Defined.

End FurtherExamples.
